(** * synthetic_data.py: [make_synthetic_test]

    A shallow embedding of the synthetic test-data generator and the
    properties of its time axis, baseline and anomaly injection.

    Conventions of the embedding.
    - A finite Python/NumPy float is an exact rational ([Q]); the non-finite
      floats ([nan], [inf], [-inf]) are separate constructors.  Rounding of
      binary floating point is not modelled.
    - A pandas [Timestamp]/[Timedelta] is a count of nanoseconds ([Z]) or
      [NaT]; the int64 bound of pandas is not modelled.
    - [numpy.random.Generator] and [numpy.std] are interfaces ([Generator],
      [Stats]): the development holds for every implementation of them.
    - A Python [dict] and a [DataFrame]'s columns are [gmap]s keyed by
      strings; exceptions are the [Raise] results of the [result] monad. *)

From stdpp Require Import gmap strings list.
From Stdlib Require Import ZArith QArith Qround Qabs Lia Lqa Sorted.

Local Open Scope Z_scope.

(** ** Exceptions and the error monad *)

Inductive exn :=
| IndexError
| KeyError (key : string)
| ValueError
| TypeError
| ZeroDivisionError.

Inductive result (A : Type) :=
| Ok (a : A)
| Raise (e : exn).
Arguments Ok {A} a.
Arguments Raise {A} e.

#[global] Instance result_ret : MRet result := fun _ a => Ok a.
#[global] Instance result_bind : MBind result := fun _ _ k r =>
  match r with
  | Ok a => k a
  | Raise e => Raise e
  end.

(** ** Python built-ins *)

Module Py.

(** [round(x)] on a float: the nearest integer, ties to the even one. *)
Definition round (x : Q) : Z :=
  let f := Qfloor x in
  match (x - inject_Z f ?= 1 # 2)%Q with
  | Lt => f
  | Gt => f + 1
  | Eq => if Z.even f then f else f + 1
  end.

(** [d[k]] on a dict: [KeyError] when the key is absent. *)
Definition getitem {V} (d : gmap string V) (k : string) : result V :=
  match d !! k with
  | Some v => Ok v
  | None => Raise (KeyError k)
  end.

(** [bool(d)] for a dict: a non-empty dict is truthy. *)
Definition truthy {V} (d : gmap string V) : bool :=
  negb (bool_decide (d = ∅)).

End Py.

(** ** NumPy floats *)

Inductive float :=
| Fin (q : Q)
| Inf (negative : bool)
| NaN.

Module Np.

Definition isfinite (x : float) : bool :=
  match x with Fin _ => true | _ => false end.

Definition isnan (x : float) : bool :=
  match x with NaN => true | _ => false end.

Definition add (x y : float) : float :=
  match x, y with
  | NaN, _ | _, NaN => NaN
  | Fin a, Fin b => Fin (a + b)
  | Inf s, Fin _ | Fin _, Inf s => Inf s
  | Inf s, Inf t => if Bool.eqb s t then Inf s else NaN
  end.

Definition Qnegative (a : Q) : bool :=
  match (a ?= 0)%Q with Lt => true | _ => false end.

Definition mul (x y : float) : float :=
  match x, y with
  | NaN, _ | _, NaN => NaN
  | Fin a, Fin b => Fin (a * b)
  | Inf s, Fin a | Fin a, Inf s =>
      if Qeq_bool a 0 then NaN else Inf (xorb s (Qnegative a))
  | Inf s, Inf t => Inf (xorb s t)
  end.

(** [x <= y]; false as soon as one side is [nan]. *)
Definition le (x y : float) : bool :=
  match x, y with
  | NaN, _ | _, NaN => false
  | Inf true, _ | _, Inf false => true
  | Inf false, _ | _, Inf true => false
  | Fin a, Fin b => Qle_bool a b
  end.

Fixpoint insert_sorted (x : float) (l : list float) : list float :=
  match l with
  | [] => [x]
  | y :: l' => if le x y then x :: l else y :: insert_sorted x l'
  end.

Definition sort (l : list float) : list float :=
  foldr insert_sorted [] l.

(** [np.nanmedian(a)]: the median of the entries that are not [nan]
    (the middle one, or the mean of the two middle ones), [nan] when there
    is none. *)
Definition nanmedian (a : list float) : float :=
  let s := sort (filter (fun x => isnan x = false) a) in
  let n := length s in
  match n with
  | O => NaN
  | _ =>
      if Nat.even n
      then mul (add (nth (n / 2 - 1) s NaN) (nth (n / 2) s NaN)) (Fin (1 # 2))
      else nth (n / 2) s NaN
  end.

End Np.

(** ** pandas timestamps *)

Inductive Timestamp := NaT | Ts (ns : Z).
Inductive Timedelta := NaTd | Td (ns : Z).

Module Pd.

Definition ns_per_sec : Z := 1000000000.

(** [pd.to_timedelta(x, unit="s")] for a finite float: the nearest whole
    number of nanoseconds, in exact arithmetic.  pandas splits [x] into its
    integer part and its fraction, rounds the fraction to nine decimals and
    truncates the binary product with 10^9; the truncation can fall one
    nanosecond short of the value below when [x] is not an integer (never
    when it is: the fraction is then zero).  The properties that depend on
    the exact nanosecond are therefore stated for whole seconds only. *)
Definition to_timedelta (x : Q) : Timedelta :=
  Td (Py.round (x * inject_Z ns_per_sec)).

(** [Timedelta.total_seconds()]; [nan] for [NaT]. *)
Definition total_seconds (d : Timedelta) : float :=
  match d with
  | Td ns => Fin (ns # 1000000000)
  | NaTd => NaN
  end.

(** [Timestamp + Timedelta]. *)
Definition add (t : Timestamp) (d : Timedelta) : Timestamp :=
  match t, d with
  | Ts a, Td b => Ts (a + b)
  | _, _ => NaT
  end.

(** [Timestamp - Timestamp]. *)
Definition sub (t u : Timestamp) : Timedelta :=
  match t, u with
  | Ts a, Ts b => Td (a - b)
  | _, _ => NaTd
  end.

(** [Series.max()] of a datetime column: [NaT] entries are skipped, and
    the result is [NaT] when nothing is left. *)
Definition max2 (t u : Timestamp) : Timestamp :=
  match t, u with
  | Ts a, Ts b => Ts (Z.max a b)
  | NaT, _ => u
  | _, NaT => t
  end.

Definition max (s : list Timestamp) : Timestamp := foldr max2 NaT s.

(** [Series.diff()]: the first entry is undefined, entry [i] is
    [s[i] - s[i-1]]. *)
Fixpoint diff_from (prev : Timestamp) (s : list Timestamp) : list Timedelta :=
  match s with
  | [] => []
  | t :: s' => sub t prev :: diff_from t s'
  end.

Definition diff (s : list Timestamp) : list Timedelta :=
  match s with
  | [] => []
  | t :: s' => NaTd :: diff_from t s'
  end.

End Pd.

(** ** Sampling interval (lines 53-57)

    [np.isfinite] holds exactly of the floats [Fin q]: the pattern [Fin]
    stands for the test. *)

Definition estimate_interval (train_time : list Timestamp) : Q :=
  let diffs := map Pd.total_seconds (Pd.diff train_time) in
  match Np.nanmedian diffs with
  | Fin m => if Qle_bool m 0 then 1%Q else m
  | _ => 1%Q
  end.

Definition resolve_interval (sample_interval_sec : option float)
    (train_time : list Timestamp) : Q :=
  match sample_interval_sec with
  | Some (Fin q) => q
  | _ => estimate_interval train_time
  end.


(** ** numpy.random.Generator and numpy.std

    [rng_state] is the generator's internal state; every draw returns the
    value and the advanced state.  The laws are the ranges NumPy documents;
    [std] is taken on non-empty samples of finite numbers. *)

Class Generator := {
  rng_state : Type;
  (** what the operating system supplies when no seed is given *)
  entropy : Type;
  (** [np.random.default_rng(seed)]; [seed=None] reads fresh entropy *)
  default_rng : option Z -> entropy -> rng_state;
  (** [rng.random()]: a float in [[0, 1)] *)
  random : rng_state -> Q * rng_state;
  (** [rng.standard_normal(size)] *)
  standard_normal : nat -> rng_state -> list Q * rng_state;
  (** [rng.integers(low, high)] for [low < high] *)
  integers : Z -> Z -> rng_state -> Z * rng_state;
  (** the position [rng.choice] picks in a sequence of the given length *)
  choice_index : nat -> rng_state -> nat * rng_state;
  default_rng_seeded : forall s e1 e2,
    default_rng (Some s) e1 = default_rng (Some s) e2;
  random_range : forall g, (0 <= (random g).1 < 1)%Q;
  standard_normal_length : forall n g, length (standard_normal n g).1 = n;
  integers_range : forall lo hi g, lo < hi -> lo <= (integers lo hi g).1 < hi;
  choice_index_range : forall n g, (0 < n)%nat -> ((choice_index n g).1 < n)%nat
}.

Class Stats := {
  (** [np.std(a)]: the population standard deviation *)
  std : list Q -> Q;
  std_nonneg : forall a, (0 <= std a)%Q;
  std_constant : forall x n, (0 < n)%nat -> (std (repeat x n) == 0)%Q
}.

(** ** scikit-learn's LinearRegression and the pandas DataFrame *)

Record LinearRegression := { coef_ : Q; intercept_ : Q }.

Inductive column :=
| DatetimeCol (ts : list Timestamp)
| FloatCol (xs : list float).

(** [index] is the length of the frame's [RangeIndex]. *)
Record DataFrame := { index : nat; columns : gmap string column }.

(** The arguments of [make_synthetic_test].  [df_train] is the training
    frame's ['time'] column, so [len(df_train)] is its length. *)
Record params := {
  df_train : list Timestamp;
  models : gmap string LinearRegression;
  axes : list string;
  n_rows : option Z;
  sample_interval_sec : option float;
  anomaly_blocks : Z;
  block_min_sec : Q;
  block_max_sec : Q;
  drift_per_sec : Q;
  seed : option Z;
  residuals_dict : option (gmap string (list Q));
  force_above : bool;
  MinC : option (gmap string Q);
  MaxC : option (gmap string Q)
}.

(** The signature's default values. *)
Definition defaults (train : list Timestamp)
    (ms : gmap string LinearRegression) (axs : list string) : params :=
  {| df_train := train; models := ms; axes := axs;
     n_rows := None; sample_interval_sec := None;
     anomaly_blocks := 10; block_min_sec := 20; block_max_sec := 25;
     drift_per_sec := 0; seed := Some 42; residuals_dict := None;
     force_above := true; MinC := None; MaxC := None |}.

Section Generation.

Context {Gen : Generator} {Sta : Stats}.

(** [rng.uniform(low, high)] is [low + (high - low) * rng.random()]. *)
Definition uniform (low high : Q) (g : rng_state) : Q * rng_state :=
  let '(u, g') := random g in ((low + (high - low) * u)%Q, g').

(** [rng.normal(loc, scale, size)] is [loc + scale * standard_normal];
    a negative [scale] or [size] is a [ValueError]. *)
Definition normal (loc scale : Q) (size : Z) (g : rng_state)
    : result (list float * rng_state) :=
  if Np.Qnegative scale || (size <? 0) then Raise ValueError
  else
    let '(zs, g') := standard_normal (Z.to_nat size) g in
    Ok (map (fun z => Fin (loc + scale * z)%Q) zs, g').

(** [rng.integers(low, high)]; an empty range is a [ValueError]. *)
Definition rng_integers (low high : Z) (g : rng_state)
    : result (Z * rng_state) :=
  if low <? high then Ok (integers low high g) else Raise ValueError.

(** [rng.choice(a)] on a list; an empty list is a [ValueError]. *)
Definition choice (a : list string) (g : rng_state)
    : result (string * rng_state) :=
  let '(i, g') := choice_index (length a) g in
  match a !! i with
  | Some x => Ok (x, g')
  | None => Raise ValueError
  end.

(** [model.predict(X)]: scikit-learn refuses an empty or a non-finite
    input, and otherwise applies the fitted line to every sample. *)
Definition finite_value (x : float) : result Q :=
  match x with Fin q => Ok q | _ => Raise ValueError end.

Definition predict (m : LinearRegression) (X : list float)
    : result (list float) :=
  match X with
  | [] => Raise ValueError
  | _ =>
      xs ← mapM finite_value X;
      Ok (map (fun x => Fin (coef_ m * x + intercept_ m)%Q) xs)
  end.

(** Element-wise [a + b] on arrays of one length. *)
Definition array_add (a b : list float) : list float := zip_with Np.add a b.

(** [{k: f(k) for k in keys}] *)
Fixpoint dict_comprehension {V} (f : string -> result V) (keys : list string)
    (acc : gmap string V) : result (gmap string V) :=
  match keys with
  | [] => Ok acc
  | k :: keys' => v ← f k; dict_comprehension f keys' (<[k := v]> acc)
  end.

(** Line 72. *)
Definition residual_std (p : params) : result (gmap string Q) :=
  match residuals_dict p with
  | Some rd =>
      if Py.truthy rd
      then dict_comprehension (fun a => r ← Py.getitem rd a; Ok (std r)) (axes p) ∅
      else dict_comprehension (fun _ => Ok 1%Q) (axes p) ∅
  | None => dict_comprehension (fun _ => Ok 1%Q) (axes p) ∅
  end.

(** Lines 59-60. *)
Definition row_count (p : params) : Z :=
  match n_rows p with
  | Some n => n
  | None => Z.of_nat (length (df_train p))
  end.

(** Lines 63-64: the timestamps that follow the training period. *)
Definition start_time (p : params) (interval : Q) : Timestamp :=
  Pd.add (Pd.max (df_train p)) (Pd.to_timedelta interval).

Definition make_times (p : params) (interval : Q) : list Timestamp :=
  map (fun i => Pd.add (start_time p interval)
                  (Pd.to_timedelta (inject_Z i * interval)))
      (seqZ 0 (row_count p)).

(** Lines 67-68: seconds elapsed since the first synthetic timestamp. *)
Definition make_time_numeric (times : list Timestamp) : result (list float) :=
  match times with
  | [] => Raise IndexError
  | t0 :: _ => Ok (map (fun t => Pd.total_seconds (Pd.sub t t0)) times)
  end.

(** Lines 76-80: one column per axis, prediction + noise + drift. *)
Fixpoint baseline (p : params) (res_std : gmap string Q)
    (time_numeric : list float) (todo : list string)
    (data : gmap string column) (g : rng_state)
    : result (gmap string column * rng_state) :=
  match todo with
  | [] => Ok (data, g)
  | axis :: todo' =>
      m ← Py.getitem (models p) axis;
      yhat ← predict m time_numeric;
      sd ← Py.getitem res_std axis;
      '(noise, g') ← normal 0 sd (row_count p) g;
      let drift := map (Np.mul (Fin (drift_per_sec p))) time_numeric in
      baseline p res_std time_numeric todo'
        (<[axis := FloatCol (array_add (array_add yhat noise) drift)]> data) g'
  end.

(** [df.loc[first:last, axis] += lift]: the label slice of a [RangeIndex]
    takes the rows [first], ..., [last], both ends included. *)
Definition add_rows (first last : Z) (lift : float) (xs : list float)
    : list float :=
  imap (fun i x =>
          if (first <=? Z.of_nat i) && (Z.of_nat i <=? last)
          then Np.add x lift else x) xs.

Definition loc_iadd (df : DataFrame) (first last : Z) (axis : string)
    (lift : float) : result DataFrame :=
  match columns df !! axis with
  | Some (FloatCol xs) =>
      Ok {| index := index df;
            columns := <[axis := FloatCol (add_rows first last lift xs)]> (columns df) |}
  | Some (DatetimeCol _) => Raise TypeError
  | None => Raise (KeyError axis)
  end.

(** Lines 92-97: the lift of a block on [axis]. *)
Definition draw_lift (p : params) (res_std : gmap string Q) (axis : string)
    (g : rng_state) : result (Q * rng_state) :=
  match force_above p, MaxC p with
  | true, Some maxc =>
      c ← Py.getitem maxc axis;
      let '(u, g') := uniform (12 # 10) (15 # 10) g in
      Ok ((Qabs c * u)%Q, g')
  | _, _ =>
      sd ← Py.getitem res_std axis;
      let '(u, g') := uniform (25 # 10) 4 g in
      Ok ((Qabs sd * u)%Q, g')
  end.

(** Lines 86-90: the rows and the axis of a block. *)
Definition draw_block (p : params) (interval : Q) (g : rng_state)
    : result (Z * Z * string * rng_state) :=
  let '(block_len_sec, g1) := uniform (block_min_sec p) (block_max_sec p) g in
  if Qeq_bool interval 0 then Raise ZeroDivisionError
  else
    let block_len_rows := Z.max 1 (Py.round (block_len_sec / interval)) in
    '(start_idx, g2) ← rng_integers 0 (Z.max 1 (row_count p - block_len_rows)) g1;
    let end_idx := Z.min (row_count p) (start_idx + block_len_rows) in
    '(axis, g3) ← choice (axes p) g2;
    Ok (start_idx, end_idx, axis, g3).

(** Lines 86-99: one round of the injection loop. *)
Definition inject_block (p : params) (interval : Q) (res_std : gmap string Q)
    (df : DataFrame) (g : rng_state) : result (DataFrame * rng_state) :=
  '(start_idx, end_idx, axis, g3) ← draw_block p interval g;
  '(lift, g4) ← draw_lift p res_std axis g3;
  df' ← loc_iadd df start_idx (end_idx - 1) axis (Fin lift);
  Ok (df', g4).

(** [for _ in range(k)]: [k] rounds, stopping at the first exception. *)
Fixpoint inject_blocks (p : params) (interval : Q) (res_std : gmap string Q)
    (k : nat) (df : DataFrame) (g : rng_state)
    : result (DataFrame * rng_state) :=
  match k with
  | O => Ok (df, g)
  | S k' =>
      '(df', g') ← inject_block p interval res_std df g;
      inject_blocks p interval res_std k' df' g'
  end.

(** Lines 62-82: the table before any anomaly is injected, with the
    per-axis noise level and the generator as the loop left it. *)
Definition baseline_frame (p : params) (interval : Q) (e : entropy)
    : result (gmap string Q * DataFrame * rng_state) :=
  let times := make_times p interval in
  time_numeric ← make_time_numeric times;
  res_std ← residual_std p;
  let data : gmap string column :=
    <["time_numeric" := FloatCol time_numeric]>
      (<["time" := DatetimeCol times]> ∅) in
  '(data', g) ← baseline p res_std time_numeric (axes p) data
                  (default_rng (seed p) e);
  Ok (res_std, {| index := length times; columns := data' |}, g).

(** The whole function; [e] is the entropy of the operating system at
    the time of the call. *)
Definition make_synthetic_test (p : params) (e : entropy)
    : result (DataFrame * Q) :=
  let interval := resolve_interval (sample_interval_sec p) (df_train p) in
  '(res_std, df_test, g) ← baseline_frame p interval e;
  '(df_test', _) ← inject_blocks p interval res_std
                     (Z.to_nat (anomaly_blocks p)) df_test g;
  Ok (df_test', interval).

(** Reading the table. *)
Definition datetime_column (df : DataFrame) (name : string)
    : option (list Timestamp) :=
  match columns df !! name with
  | Some (DatetimeCol ts) => Some ts
  | _ => None
  end.

Definition float_column (df : DataFrame) (name : string)
    : option (list float) :=
  match columns df !! name with
  | Some (FloatCol xs) => Some xs
  | _ => None
  end.

(** *** Vocabulary of the properties that depends on the generator *)

(** The noise level line 72 gives an axis. *)
Definition noise_level (p : params) (a : string) : Q :=
  match residuals_dict p with
  | Some rd =>
      if Py.truthy rd
      then match rd !! a with Some r => std r | None => 1%Q end
      else 1%Q
  | None => 1%Q
  end.

(** The generator after the noise of [k] axes has been drawn. *)
Definition after_noise (size k : nat) (g : rng_state) : rng_state :=
  Nat.iter k (fun g' => (standard_normal size g').2) g.

(** Whole nanoseconds of [x] seconds, and the nanoseconds elapsed at row [i]. *)
Definition ns_of (x : Q) : Z := Py.round (x * inject_Z Pd.ns_per_sec).

Definition elapsed_ns (interval : Q) (i : Z) : Z :=
  ns_of (inject_Z i * interval) - ns_of (inject_Z 0 * interval).

Definition elapsed_seconds (p : params) (interval : Q) : list Q :=
  map (fun i => elapsed_ns interval i # 1000000000) (seqZ 0 (row_count p)).

(** The pure baseline of an axis: prediction + noise + drift, row by row,
    for the model [m], the noise level [sd] and the standard normal draws
    [zs]. *)
Definition pure_baseline (p : params) (m : LinearRegression) (sd : Q)
    (ts zs : list Q) : list float :=
  zip_with (fun t z =>
      Fin ((coef_ m * t + intercept_ m) + (0 + sd * z) + drift_per_sec p * t)%Q)
    ts zs.

(** What lines 59-80 need from a call: a row to generate, a training
    timestamp to continue from, a model for every axis and, when residuals
    are given, residuals for every axis. *)
Definition baseline_ready (p : params) : Prop :=
  1 <= row_count p /\
  (exists m, Pd.max (df_train p) = Ts m) /\
  (forall a, a ∈ axes p -> is_Some (models p !! a)) /\
  (forall rd, residuals_dict p = Some rd -> rd <> ∅ ->
     forall a, a ∈ axes p -> is_Some (rd !! a)).

(** What lines 85-99 need when a block is injected: a non-zero interval,
    an axis to choose and, in threshold-aware mode, a threshold for every
    axis. *)
Definition injection_ready (p : params) (interval : Q) : Prop :=
  0 < anomaly_blocks p ->
  ~ (interval == 0)%Q /\ axes p <> [] /\
  (force_above p = true -> forall maxc, MaxC p = Some maxc ->
     forall a, a ∈ axes p -> is_Some (maxc !! a)).

(** Every axis has a float column in the table. *)
Definition float_axes (p : params) (df : DataFrame) : Prop :=
  forall a, a ∈ axes p -> exists xs, columns df !! a = Some (FloatCol xs).

End Generation.

#[global] Arguments after_noise : simpl never.

(** ** Vocabulary of the properties *)

(** Numeric equality of floats ([nan] is equal to nothing). *)
Definition feq (x y : float) : Prop :=
  match x, y with
  | Fin a, Fin b => (a == b)%Q
  | Inf s, Inf t => s = t
  | _, _ => False
  end.






(** The differences between consecutive training timestamps, in seconds;
    there is none for the first row, nor next to a missing timestamp. *)
Fixpoint gaps_from (prev : Timestamp) (s : list Timestamp) : list Q :=
  match s with
  | [] => []
  | t :: s' =>
      match t, prev with
      | Ts a, Ts b => ((a - b) # 1000000000) :: gaps_from t s'
      | _, _ => gaps_from t s'
      end
  end.

Definition gaps (s : list Timestamp) : list Q :=
  match s with
  | [] => []
  | t :: s' => gaps_from t s'
  end.

Fixpoint Qinsert (x : Q) (l : list Q) : list Q :=
  match l with
  | [] => [x]
  | y :: l' => if Qle_bool x y then x :: l else y :: Qinsert x l'
  end.

Definition Qsort (l : list Q) : list Q := foldr Qinsert [] l.

(** The median of a list of rationals: the middle element of the sorted
    list, or the mean of the two middle ones. *)
Definition median (l : list Q) : option Q :=
  let s := Qsort l in
  let n := length s in
  match n with
  | O => None
  | _ =>
      Some (if Nat.even n
            then ((nth (n / 2 - 1) s 0 + nth (n / 2) s 0) * (1 # 2))%Q
            else nth (n / 2) s 0%Q)
  end.

(** Steps 2 and 3 of the interval policy: the median gap, or one second
    when there is no median or it is not positive. *)
Definition median_policy (train_time : list Timestamp) : Q :=
  match median (gaps train_time) with
  | Some m => if Qle_bool m 0 then 1%Q else m
  | None => 1%Q
  end.

(** The interval policy in the specification's words: a supplied interval
    is used when it is finite and positive, and the median policy applies
    otherwise. *)
Definition claimed_interval (sample_interval_sec : option float)
    (train_time : list Timestamp) : Q :=
  match sample_interval_sec with
  | Some (Fin q) => if Qle_bool q 0 then median_policy train_time else q
  | _ => median_policy train_time
  end.

(** ** Vocabulary of further properties *)

(** An anomaly block as a round of the loop applies it: the rows
    [block_start], ..., [block_end - 1] of [block_axis] get [block_lift]. *)
Record block := {
  block_start : Z;
  block_end : Z;
  block_axis : string;
  block_lift : Q
}.

Section Trace.

Context {Gen : Generator} {Sta : Stats}.

(** The blocks that [k] rounds of the loop draw from the generator [g]
    (lines 86-97); the draws do not read the table. *)
Fixpoint block_trace (p : params) (interval : Q) (res_std : gmap string Q)
    (k : nat) (g : rng_state) : list block :=
  match k with
  | O => []
  | S k' =>
      match draw_block p interval g with
      | Ok (start_idx, end_idx, axis, g3) =>
          match draw_lift p res_std axis g3 with
          | Ok (lift, g4) =>
              {| block_start := start_idx; block_end := end_idx;
                 block_axis := axis; block_lift := lift |}
              :: block_trace p interval res_std k' g4
          | Raise _ => []
          end
      | Raise _ => []
      end
  end.

End Trace.

(** The block [b] covers row [i] of column [c]. *)
Definition covers (b : block) (c : string) (i : nat) : bool :=
  bool_decide (block_axis b = c)
  && (block_start b <=? Z.of_nat i) && (Z.of_nat i <? block_end b).

(** The value [x] of row [i] of column [c] after the block [b], and after
    the blocks of [trace] in order. *)
Definition apply_block (c : string) (i : nat) (x : float) (b : block) : float :=
  if covers b c i then Np.add x (Fin (block_lift b)) else x.

Definition accumulate (c : string) (i : nat) (x : float) (trace : list block)
    : float :=
  foldl (apply_block c i) x trace.

Definition column_length (col : column) : nat :=
  match col with
  | DatetimeCol ts => length ts
  | FloatCol xs => length xs
  end.

Definition ts_le (t u : Timestamp) : Prop :=
  match t, u with
  | Ts a, Ts b => a <= b
  | _, _ => False
  end.

Definition nondecreasing (ts : list Timestamp) : Prop :=
  forall (i j : nat) t u,
    (i <= j)%nat -> ts !! i = Some t -> ts !! j = Some u -> ts_le t u.

(** ** Example calls *)

(** Training timestamps given in whole seconds. *)
Definition seconds (l : list Z) : list Timestamp :=
  map (fun s => Ts (s * Pd.ns_per_sec)) l.

(** Three training rows, ten seconds apart. *)
Definition example_train : list Timestamp := seconds [0; 10; 20].

(** One axis whose fitted line is the constant [-5], residuals that are all
    zero, the threshold [MaxC["a1"] = 10], one row and one forced block. *)
Definition below_threshold_call : params :=
  {| df_train := example_train;
     models := {["a1" := {| coef_ := 0; intercept_ := -5 |}]};
     axes := ["a1"];
     n_rows := Some 1; sample_interval_sec := None;
     anomaly_blocks := 1; block_min_sec := 20; block_max_sec := 25;
     drift_per_sec := 0; seed := Some 42;
     residuals_dict := Some {["a1" := [0%Q; 0%Q]]};
     force_above := true; MinC := None;
     MaxC := Some {["a1" := 10%Q]} |}.

(** A call on three training rows ten seconds apart and one axis, "a1",
    with the fitted line [0.5 * t + 3]; the other arguments keep their
    defaults unless given. *)
Definition example_call (rows : option Z) (interval : option float)
    (blocks : Z) (maxc : option (gmap string Q)) : params :=
  {| df_train := example_train;
     models := {["a1" := {| coef_ := 1 # 2; intercept_ := 3 |}]};
     axes := ["a1"];
     n_rows := rows; sample_interval_sec := interval;
     anomaly_blocks := blocks; block_min_sec := 20; block_max_sec := 25;
     drift_per_sec := 0; seed := Some 42; residuals_dict := None;
     force_above := true; MinC := None; MaxC := maxc |}.

(** A three-row table to inject a block into. *)
Definition example_frame : DataFrame :=
  {| index := 3;
     columns := {["a1" := FloatCol [Fin 1; Fin 2; Fin 3]]} |}.

(** A call like [example_call] with the given axes, models and residuals,
    ten blocks and no thresholds. *)
Definition custom_call (axs : list string)
    (ms : gmap string LinearRegression)
    (rd : option (gmap string (list Q))) : params :=
  {| df_train := example_train; models := ms; axes := axs;
     n_rows := None; sample_interval_sec := None;
     anomaly_blocks := 10; block_min_sec := 20; block_max_sec := 25;
     drift_per_sec := 0; seed := Some 42; residuals_dict := rd;
     force_above := true; MinC := None; MaxC := None |}.

(** ** A concrete generator and statistics, to run the model

    [counter_generator] walks through a fixed cycle of values; [approx_std]
    is the population standard deviation to six decimals. *)

Module Fixture.

Definition Qsum (a : list Q) : Q := foldr Qplus 0%Q a.

Definition mean (a : list Q) : Q :=
  (Qsum a / inject_Z (Z.of_nat (length a)))%Q.

Definition variance (a : list Q) : Q :=
  mean (map (fun x => (x - mean a) * (x - mean a))%Q a).

Definition approx_std (a : list Q) : Q :=
  Z.sqrt (Qfloor (variance a * 1000000000000)) # 1000000.

Lemma Qsum_repeat x n :
  (Qsum (repeat x n) == inject_Z (Z.of_nat n) * x)%Q.
Proof.
  induction n as [|n IH].
  - simpl. ring.
  - cbn [repeat Qsum foldr]. fold (Qsum (repeat x n)). rewrite IH.
    rewrite Nat2Z.inj_succ, <- Z.add_1_r, inject_Z_plus. ring.
Qed.

Lemma mean_repeat x n : (0 < n)%nat -> (mean (repeat x n) == x)%Q.
Proof.
  intros Hn. unfold mean. rewrite Qsum_repeat, repeat_length.
  field. intros E. unfold Qeq in E. simpl in E. lia.
Qed.

Lemma variance_repeat x n : (variance (repeat x n) == 0)%Q.
Proof.
  unfold variance. rewrite map_repeat.
  destruct n as [|n]; [reflexivity|].
  rewrite (mean_repeat _ (S n)) by lia.
  rewrite (mean_repeat x (S n)) by lia. ring.
Qed.

#[export] Instance approx_stats : Stats.
Proof.
  refine {| std := approx_std |}.
  - intros a. unfold approx_std, Qle. cbn [Qnum Qden].
    pose proof (Z.sqrt_nonneg (Qfloor (variance a * 1000000000000))). lia.
  - intros x n _. unfold approx_std.
    rewrite (Qfloor_comp _ 0%Q) by (rewrite variance_repeat; ring).
    reflexivity.
Defined.

#[export] Instance counter_generator : Generator.
Proof.
  refine {| rng_state := Z;
            entropy := Z;
            default_rng := fun seed e => default e seed;
            random := fun g => ((g mod 4) # 4, g + 1);
            standard_normal := fun n g =>
              (map (fun i => inject_Z ((g + Z.of_nat i) mod 5 - 2)) (seq 0 n), g + 1);
            integers := fun lo hi g => (lo + g mod (hi - lo), g + 1);
            choice_index := fun n g => (Z.to_nat (g mod Z.of_nat n), g + 1) |}.
  - reflexivity.
  - intros g. unfold Qle, Qlt. cbn [fst Qnum Qden].
    pose proof (Z.mod_pos_bound g 4). lia.
  - intros n g. cbn [fst]. rewrite length_map, length_seq. reflexivity.
  - intros lo hi g Hlt. cbn [fst].
    pose proof (Z.mod_pos_bound g (hi - lo)). lia.
  - intros n g Hn. cbn [fst].
    pose proof (Z.mod_pos_bound g (Z.of_nat n)). lia.
Defined.

End Fixture.

(** ** Rounding and whole numbers of nanoseconds *)






(** ** The sampling interval *)

Section Interval.

Lemma filter_diff_from prev s :
  filter (fun x => Np.isnan x = false) (map Pd.total_seconds (Pd.diff_from prev s))
  = map Fin (gaps_from prev s).
Proof.
  revert prev. induction s as [|t s IH]; intros prev; [reflexivity|].
  cbn [Pd.diff_from map gaps_from].
  destruct t as [|a], prev as [|b]; cbn [Pd.sub Pd.total_seconds];
    rewrite ?filter_cons_True, ?filter_cons_False by (cbn; congruence);
    cbn [map]; rewrite IH; reflexivity.
Qed.

Lemma filter_diff s :
  filter (fun x => Np.isnan x = false) (map Pd.total_seconds (Pd.diff s))
  = map Fin (gaps s).
Proof.
  destruct s as [|t s]; [reflexivity|].
  cbn [Pd.diff map Pd.total_seconds gaps].
  rewrite filter_cons_False by (cbn; congruence).
  apply filter_diff_from.
Qed.

Lemma insert_sorted_Fin x l :
  Np.insert_sorted (Fin x) (map Fin l) = map Fin (Qinsert x l).
Proof.
  induction l as [|y l IH]; [reflexivity|].
  cbn [map Np.insert_sorted Qinsert Np.le].
  destruct (Qle_bool x y); cbn [map]; [reflexivity|]. rewrite IH. reflexivity.
Qed.

Lemma sort_Fin l : Np.sort (map Fin l) = map Fin (Qsort l).
Proof.
  induction l as [|x l IH]; [reflexivity|].
  cbn [map]. unfold Np.sort, Qsort in *. cbn [foldr].
  rewrite IH. apply insert_sorted_Fin.
Qed.

Lemma nth_Fin (l : list Q) (k : nat) :
  (k < length l)%nat -> nth k (map Fin l) NaN = Fin (nth k l 0%Q).
Proof.
  intros Hk. rewrite (nth_indep _ NaN (Fin 0%Q)) by (rewrite length_map; exact Hk).
  apply (map_nth Fin).
Qed.

Lemma nanmedian_gaps s :
  Np.nanmedian (map Pd.total_seconds (Pd.diff s))
  = match median (gaps s) with Some m => Fin m | None => NaN end.
Proof.
  unfold Np.nanmedian, median.
  rewrite filter_diff, sort_Fin, length_map.
  destruct (length (Qsort (gaps s))) as [|n] eqn:En; [reflexivity|].
  assert (S n / 2 < S n)%nat as Hhi by (apply Nat.div_lt; lia).
  destruct (Nat.even (S n)).
  - rewrite !nth_Fin by lia. reflexivity.
  - rewrite nth_Fin by lia. reflexivity.
Qed.

Lemma estimate_interval_median s : estimate_interval s = median_policy s.
Proof.
  unfold estimate_interval, median_policy. rewrite nanmedian_gaps.
  destruct (median (gaps s)); reflexivity.
Qed.

(** The sorted list is a sorted rearrangement of the gaps. *)
Lemma Qinsert_perm x l : Qinsert x l ≡ₚ x :: l.
Proof.
  induction l as [|y l IH]; [reflexivity|].
  cbn [Qinsert]. destruct (Qle_bool x y); [reflexivity|].
  rewrite IH. apply Permutation_swap.
Qed.

Lemma Qsort_perm l : Qsort l ≡ₚ l.
Proof.
  induction l as [|x l IH]; [reflexivity|].
  unfold Qsort in *. cbn [foldr]. rewrite Qinsert_perm, IH. reflexivity.
Qed.

Lemma Qinsert_sorted x l :
  StronglySorted Qle l -> StronglySorted Qle (Qinsert x l).
Proof.
  induction 1 as [|y l Hs IH Hall]; cbn [Qinsert].
  - repeat constructor.
  - destruct (Qle_bool x y) eqn:E.
    + apply Qle_bool_iff in E. constructor; [constructor; assumption|].
      constructor; [exact E|].
      eapply Forall_impl; [exact Hall|]. intros z Hz. cbn in Hz.
      eapply Qle_trans; eassumption.
    + assert (y <= x)%Q as Hyx.
      { destruct (Qlt_le_dec y x) as [H|H]; [apply Qlt_le_weak, H|].
        apply Qle_bool_iff in H. congruence. }
      constructor; [exact IH|].
      rewrite Qinsert_perm. constructor; assumption.
Qed.

Lemma Qsort_sorted l : StronglySorted Qle (Qsort l).
Proof.
  induction l as [|x l IH]; [constructor|].
  unfold Qsort in *. cbn [foldr]. apply Qinsert_sorted, IH.
Qed.

(** C4 (as amended): an interval the caller supplies is used verbatim
    whenever it is finite, whatever its sign; a missing or non-finite one is
    replaced by the median of the consecutive training timestamp differences
    in seconds, and by 1.0 when that median does not exist or is not
    positive. *)
Theorem resolve_interval_policy (train_time : list Timestamp) :
  (forall q, resolve_interval (Some (Fin q)) train_time = q) /\
  resolve_interval None train_time = median_policy train_time /\
  resolve_interval (Some NaN) train_time = median_policy train_time /\
  (forall s, resolve_interval (Some (Inf s)) train_time = median_policy train_time) /\
  (0 < median_policy train_time)%Q.
Proof.
  repeat split; try (intros; cbn [resolve_interval]; try apply estimate_interval_median; reflexivity).
  unfold median_policy. destruct (median (gaps train_time)) as [m|]; [|reflexivity].
  destruct (Qle_bool m 0) eqn:E; [reflexivity|].
  destruct (Qlt_le_dec 0 m) as [H|H]; [exact H|].
  apply Qle_bool_iff in H. congruence.
Qed.

End Interval.

(** ** The time axis and the baseline *)

Section Stages.

Context {Gen : Generator} {Sta : Stats}.
Implicit Types (p : params) (g : rng_state) (df : DataFrame).

Lemma dict_comprehension_lookup {V} (f : string -> result V) keys acc :
  (forall k, k ∈ keys -> exists v, f k = Ok v) ->
  exists m, dict_comprehension f keys acc = Ok m /\
    forall k, m !! k =
      if decide (k ∈ keys)
      then match f k with Ok v => Some v | Raise _ => None end
      else acc !! k.
Proof.
  revert acc. induction keys as [|k0 keys IH]; intros acc Hf.
  - exists acc. split; [reflexivity|]. intros k.
    destruct (decide (k ∈ [])) as [H|_]; [inversion H|reflexivity].
  - destruct (Hf k0) as [v Hv]; [left|].
    destruct (IH (<[k0 := v]> acc)) as (m & Hm & Hl).
    { intros k Hk. apply Hf. right. exact Hk. }
    exists m. split.
    + cbn [dict_comprehension]. rewrite Hv. exact Hm.
    + intros k. rewrite Hl.
      destruct (decide (k ∈ keys)) as [Hin|Hnin].
      * rewrite decide_True by (right; exact Hin). reflexivity.
      * destruct (decide (k = k0)) as [->|Hne].
        -- rewrite decide_True by left. rewrite Hv. apply lookup_insert_eq.
        -- rewrite decide_False by (intros H; inversion H; subst; tauto).
           apply lookup_insert_ne. congruence.
Qed.

Lemma noise_level_nonneg p a : (0 <= noise_level p a)%Q.
Proof.
  unfold noise_level.
  destruct (residuals_dict p) as [rd|]; [|discriminate].
  destruct (Py.truthy rd); [|discriminate].
  destruct (rd !! a); [apply std_nonneg|discriminate].
Qed.

Lemma residual_std_spec p :
  baseline_ready p ->
  exists rs, residual_std p = Ok rs /\
    forall a, a ∈ axes p -> rs !! a = Some (noise_level p a).
Proof.
  intros (_ & _ & _ & Hrd). unfold residual_std, noise_level.
  destruct (residuals_dict p) as [rd|].
  - unfold Py.truthy. destruct (bool_decide_reflect (rd = ∅)) as [E|E]; cbn [negb].
    + destruct (dict_comprehension_lookup (fun _ => Ok 1%Q) (axes p) ∅)
        as (m & Hm & Hl); [eauto|].
      exists m. split; [exact Hm|]. intros a Ha. rewrite Hl, decide_True by exact Ha.
      reflexivity.
    + destruct (dict_comprehension_lookup
                  (fun a => r ← Py.getitem rd a; Ok (std r)) (axes p) ∅)
        as (m & Hm & Hl).
      { intros k Hk. destruct (Hrd rd eq_refl E k Hk) as [r Hr].
        exists (std r). unfold Py.getitem. rewrite Hr. reflexivity. }
      exists m. split; [exact Hm|]. intros a Ha. rewrite Hl, decide_True by exact Ha.
      destruct (Hrd rd eq_refl E a Ha) as [r Hr].
      unfold Py.getitem. rewrite Hr. reflexivity.
  - destruct (dict_comprehension_lookup (fun _ => Ok 1%Q) (axes p) ∅)
      as (m & Hm & Hl); [eauto|].
    exists m. split; [exact Hm|]. intros a Ha. rewrite Hl, decide_True by exact Ha.
    reflexivity.
Qed.

(** *** The timestamps *)

Lemma make_times_length p iv : length (make_times p iv) = Z.to_nat (row_count p).
Proof. unfold make_times. rewrite length_map. apply length_seqZ. Qed.

Lemma make_times_eq p iv m :
  Pd.max (df_train p) = Ts m ->
  make_times p iv
  = map (fun i => Ts (m + ns_of iv + ns_of (inject_Z i * iv))) (seqZ 0 (row_count p)).
Proof. intros H. unfold make_times, start_time. rewrite H. reflexivity. Qed.

Lemma make_time_numeric_head times t0 :
  head times = Some t0 ->
  make_time_numeric times
  = Ok (map (fun t => Pd.total_seconds (Pd.sub t t0)) times).
Proof. destruct times; cbn; [discriminate|]. intros [= ->]. reflexivity. Qed.

Lemma make_time_numeric_eq p iv m :
  1 <= row_count p -> Pd.max (df_train p) = Ts m ->
  make_time_numeric (make_times p iv) = Ok (map Fin (elapsed_seconds p iv)).
Proof.
  intros Hn Hm. rewrite (make_times_eq p iv m Hm).
  rewrite (make_time_numeric_head _ (Ts (m + ns_of iv + ns_of (inject_Z 0 * iv)))).
  - f_equal. unfold elapsed_seconds. rewrite !map_map. apply map_ext.
    intros i. cbn [Pd.sub Pd.total_seconds]. unfold elapsed_ns.
    do 2 f_equal. lia.
  - rewrite seqZ_cons by lia. reflexivity.
Qed.

Lemma elapsed_seconds_length p iv :
  length (elapsed_seconds p iv) = Z.to_nat (row_count p).
Proof. unfold elapsed_seconds. rewrite length_map. apply length_seqZ. Qed.

(** *** The baseline loop *)

Lemma mapM_finite (qs : list Q) : mapM finite_value (map Fin qs) = Ok qs.
Proof.
  induction qs as [|q qs IH]; [reflexivity|].
  cbn [map mapM]. cbn. cbn in IH. rewrite IH. reflexivity.
Qed.

Lemma predict_finite m (qs : list Q) :
  qs <> [] ->
  predict m (map Fin qs)
  = Ok (map (fun x => Fin (coef_ m * x + intercept_ m)%Q) qs).
Proof.
  intros Hne. unfold predict. destruct qs as [|q qs]; [congruence|].
  rewrite mapM_finite. reflexivity.
Qed.

Lemma normal_nonneg (sd : Q) (size : Z) g :
  (0 <= sd)%Q -> 0 <= size ->
  normal 0 sd size g
  = Ok (map (fun z => Fin (0 + sd * z)%Q) (standard_normal (Z.to_nat size) g).1,
        (standard_normal (Z.to_nat size) g).2).
Proof.
  intros Hsd Hsize. unfold normal.
  assert (Np.Qnegative sd = false) as ->.
  { unfold Np.Qnegative. apply Qge_alt in Hsd.
    destruct (sd ?= 0)%Q; congruence. }
  assert ((size <? 0) = false) as -> by lia.
  cbn [orb]. destruct (standard_normal (Z.to_nat size) g). reflexivity.
Qed.

Lemma after_noise_succ size k g :
  after_noise size (S k) g = after_noise size k (standard_normal size g).2.
Proof. unfold after_noise. apply Nat.iter_succ_r. Qed.

Lemma baseline_column p (m : LinearRegression) (sd : Q) (qs zs : list Q) :
  length zs = length qs ->
  array_add
    (array_add (map (fun x => Fin (coef_ m * x + intercept_ m)%Q) qs)
               (map (fun z => Fin (0 + sd * z)%Q) zs))
    (map (Np.mul (Fin (drift_per_sec p))) (map Fin qs))
  = pure_baseline p m sd qs zs.
Proof.
  unfold array_add, pure_baseline. revert zs.
  induction qs as [|q qs IH]; intros [|z zs] Hlen; try discriminate; [reflexivity|].
  cbn [map zip_with Np.add Np.mul]. f_equal. apply IH. cbn in Hlen. lia.
Qed.

Lemma baseline_spec p rs (qs : list Q) todo data g :
  let size := Z.to_nat (row_count p) in
  qs <> [] -> length qs = size -> 0 <= row_count p ->
  (forall a, a ∈ todo -> is_Some (models p !! a) /\
     exists sd, rs !! a = Some sd /\ (0 <= sd)%Q) ->
  exists data',
    baseline p rs (map Fin qs) todo data g
    = Ok (data', after_noise size (length todo) g) /\
    (forall c, c ∉ todo -> data' !! c = data !! c) /\
    (forall (j : nat) a, todo !! j = Some a -> a ∉ drop (S j) todo ->
       exists m sd, models p !! a = Some m /\ rs !! a = Some sd /\
         data' !! a = Some (FloatCol
           (pure_baseline p m sd qs (standard_normal size (after_noise size j g)).1))).
Proof.
  intros size Hne Hlen Hn. revert data g.
  induction todo as [|axis todo IH]; intros data g Hax.
  - exists data. split; [reflexivity|]. split; [reflexivity|].
    intros j a Hj. rewrite lookup_nil in Hj. discriminate.
  - destruct (Hax axis) as ([m Hm] & sd & Hsd & Hpos); [left|].
    destruct (IH (<[axis := FloatCol
                    (pure_baseline p m sd qs (standard_normal size g).1)]> data)
                 (standard_normal size g).2) as (data' & Hrun & Hframe & Hcols).
    { intros a Ha. apply Hax. right. exact Ha. }
    exists data'. split; [|split].
    + cbn [length]. rewrite after_noise_succ.
      cbn [baseline]. unfold Py.getitem. rewrite Hm, Hsd. cbn.
      rewrite predict_finite by exact Hne. cbn.
      rewrite normal_nonneg by assumption. cbn.
      rewrite baseline_column
        by (rewrite standard_normal_length; symmetry; exact Hlen).
      fold size. exact Hrun.
    + intros c Hc. rewrite Hframe by (intros H; apply Hc; right; exact H).
      apply lookup_insert_ne. intros ->. apply Hc. left.
    + intros [|j] a Hj Hlast.
      * cbn in Hj. injection Hj as <-. cbn in Hlast.
        exists m, sd. split; [exact Hm|]. split; [exact Hsd|].
        rewrite Hframe by exact Hlast. apply lookup_insert_eq.
      * cbn in Hj. cbn in Hlast.
        destruct (Hcols j a Hj Hlast) as (m' & sd' & ? & ? & Hc).
        exists m', sd'. split; [assumption|]. split; [assumption|].
        rewrite after_noise_succ. exact Hc.
Qed.

Lemma baseline_frame_spec p iv e :
  let size := Z.to_nat (row_count p) in
  let g0 := default_rng (seed p) e in
  baseline_ready p ->
  exists rs df,
    baseline_frame p iv e = Ok (rs, df, after_noise size (length (axes p)) g0) /\
    index df = size /\
    (forall a, a ∈ axes p -> rs !! a = Some (noise_level p a)) /\
    ("time" ∉ axes p ->
       columns df !! "time" = Some (DatetimeCol (make_times p iv))) /\
    ("time_numeric" ∉ axes p ->
       columns df !! "time_numeric"
       = Some (FloatCol (map Fin (elapsed_seconds p iv)))) /\
    (forall (j : nat) a, axes p !! j = Some a -> a ∉ drop (S j) (axes p) ->
       exists m, models p !! a = Some m /\
         columns df !! a = Some (FloatCol
           (pure_baseline p m (noise_level p a) (elapsed_seconds p iv)
              (standard_normal size (after_noise size j g0)).1))).
Proof.
  intros size g0 Hready.
  destruct (residual_std_spec p Hready) as (rs & Hrs & Hlevel).
  destruct Hready as (Hn & (m0 & Hmax) & Hmodels & _).
  assert (elapsed_seconds p iv <> []) as Hne.
  { intros E. pose proof (elapsed_seconds_length p iv) as HL.
    rewrite E in HL. cbn in HL. lia. }
  destruct (baseline_spec p rs (elapsed_seconds p iv) (axes p)
              (<["time_numeric" := FloatCol (map Fin (elapsed_seconds p iv))]>
                 (<["time" := DatetimeCol (make_times p iv)]> ∅)) g0)
    as (data' & Hrun & Hframe & Hcols);
    [exact Hne|apply elapsed_seconds_length|lia| |].
  { intros a Ha. split; [apply Hmodels, Ha|].
    exists (noise_level p a). split; [apply Hlevel, Ha|apply noise_level_nonneg]. }
  exists rs, {| index := length (make_times p iv); columns := data' |}.
  split; [|split; [|split; [|split; [|split]]]].
  - unfold baseline_frame.
    rewrite (make_time_numeric_eq p iv m0) by assumption. cbn.
    rewrite Hrs. cbn. fold g0. fold size in Hrun. rewrite Hrun. reflexivity.
  - cbn. apply make_times_length.
  - exact Hlevel.
  - intros Ht. cbn. rewrite Hframe by exact Ht.
    rewrite lookup_insert_ne by done. apply lookup_insert_eq.
  - intros Ht. cbn. rewrite Hframe by exact Ht. apply lookup_insert_eq.
  - intros j a Hj Hlast. destruct (Hcols j a Hj Hlast) as (m & sd & Hm & Hsd & Hc).
    exists m. split; [exact Hm|]. cbn.
    rewrite Hlevel in Hsd by (eapply list_elem_of_lookup_2; exact Hj).
    injection Hsd as <-. exact Hc.
Qed.

(** *** One round of injection *)

Lemma add_rows_length first last lift xs :
  length (add_rows first last lift xs) = length xs.
Proof. unfold add_rows. apply length_imap. Qed.

Lemma add_rows_lookup first last lift xs (i : nat) :
  add_rows first last lift xs !! i
  = (fun x => if (first <=? Z.of_nat i) && (Z.of_nat i <=? last)
              then Np.add x lift else x) <$> xs !! i.
Proof. unfold add_rows. apply list_lookup_imap. Qed.

Lemma draw_block_inv p iv g start_idx end_idx axis g3 :
  draw_block p iv g = Ok (start_idx, end_idx, axis, g3) ->
  let duration := (uniform (block_min_sec p) (block_max_sec p) g).1 in
  let block_len_rows := Z.max 1 (Py.round (duration / iv)) in
  ~ (iv == 0)%Q /\
  0 <= start_idx < Z.max 1 (row_count p - block_len_rows) /\
  end_idx = Z.min (row_count p) (start_idx + block_len_rows) /\
  axis ∈ axes p.
Proof.
  unfold draw_block.
  destruct (uniform (block_min_sec p) (block_max_sec p) g) as [dur g1]. cbn [fst].
  destruct (Qeq_bool iv 0) eqn:Eiv; [discriminate|].
  unfold rng_integers.
  set (hi := Z.max 1 (row_count p - Z.max 1 (Py.round (dur / iv)))).
  assert (0 < hi) as Hhi by (unfold hi; lia).
  assert ((0 <? hi) = true) as -> by lia.
  pose proof (integers_range 0 hi g1 Hhi) as Hrange.
  destruct (integers 0 hi g1) as [s g2]. cbn [fst] in Hrange. cbn.
  unfold choice. destruct (choice_index (length (axes p)) g2) as [k g3'].
  destruct (axes p !! k) as [a|] eqn:Ea; [|discriminate]. cbn.
  intros [= <- <- <- <-].
  split; [|split; [|split]].
  - intros E. apply Qeq_bool_iff in E. congruence.
  - exact Hrange.
  - reflexivity.
  - eapply list_elem_of_lookup_2. exact Ea.
Qed.

Lemma draw_block_ok p iv g :
  ~ (iv == 0)%Q -> axes p <> [] ->
  exists start_idx end_idx axis g3,
    draw_block p iv g = Ok (start_idx, end_idx, axis, g3).
Proof.
  intros Hiv Haxes. unfold draw_block.
  destruct (uniform (block_min_sec p) (block_max_sec p) g) as [dur g1].
  destruct (Qeq_bool iv 0) eqn:Eiv; [apply Qeq_bool_iff in Eiv; contradiction|].
  unfold rng_integers.
  set (hi := Z.max 1 (row_count p - Z.max 1 (Py.round (dur / iv)))).
  assert ((0 <? hi) = true) as -> by (unfold hi; lia).
  destruct (integers 0 hi g1) as [s g2]. cbn.
  unfold choice.
  assert (0 < length (axes p))%nat as Hlen
    by (destruct (axes p); [congruence|cbn; lia]).
  pose proof (choice_index_range (length (axes p)) g2 Hlen) as Hk.
  destruct (choice_index (length (axes p)) g2) as [k g3]. cbn [fst] in Hk.
  destruct (lookup_lt_is_Some_2 (axes p) k Hk) as [a Ha].
  rewrite Ha. cbn. eauto.
Qed.

Lemma inject_block_inv p iv rs df g df' g' :
  inject_block p iv rs df g = Ok (df', g') ->
  exists start_idx end_idx axis g3 lift xs,
    draw_block p iv g = Ok (start_idx, end_idx, axis, g3) /\
    draw_lift p rs axis g3 = Ok (lift, g') /\
    columns df !! axis = Some (FloatCol xs) /\
    df' = {| index := index df;
             columns := <[axis := FloatCol
                           (add_rows start_idx (end_idx - 1) (Fin lift) xs)]>
                          (columns df) |}.
Proof.
  unfold inject_block.
  destruct (draw_block p iv g) as [[[[s e] a] g3]|]; [|discriminate]. cbn.
  destruct (draw_lift p rs a g3) as [[lift g4]|] eqn:El; [|discriminate]. cbn.
  unfold loc_iadd. destruct (columns df !! a) as [[ts|xs]|] eqn:Ec; try discriminate.
  cbn. intros [= <- <-]. exists s, e, a, g3, lift, xs.
  split; [|split; [|split]]; reflexivity || assumption.
Qed.

Lemma draw_lift_ok p rs axis g :
  is_Some (rs !! axis) ->
  (force_above p = true -> forall maxc, MaxC p = Some maxc -> is_Some (maxc !! axis)) ->
  exists lift g', draw_lift p rs axis g = Ok (lift, g').
Proof.
  intros [sd Hsd] Hmax. unfold draw_lift, Py.getitem.
  destruct (force_above p), (MaxC p) as [maxc|];
    try (rewrite Hsd; cbn; destruct (uniform (25 # 10) 4 g); eauto).
  destruct (Hmax eq_refl maxc eq_refl) as [c Hc]. rewrite Hc. cbn.
  destruct (uniform (12 # 10) (15 # 10) g). eauto.
Qed.

Lemma draw_lift_forced p rs axis g maxc c :
  force_above p = true -> MaxC p = Some maxc -> maxc !! axis = Some c ->
  draw_lift p rs axis g
  = Ok ((Qabs c * (uniform (12 # 10) (15 # 10) g).1)%Q,
        (uniform (12 # 10) (15 # 10) g).2).
Proof.
  intros Hforce Hmax Hc. unfold draw_lift, Py.getitem.
  rewrite Hforce, Hmax, Hc. cbn.
  destruct (uniform (12 # 10) (15 # 10) g). reflexivity.
Qed.

Lemma inject_block_ok p iv rs df g :
  ~ (iv == 0)%Q -> axes p <> [] ->
  (force_above p = true -> forall maxc, MaxC p = Some maxc ->
     forall a, a ∈ axes p -> is_Some (maxc !! a)) ->
  (forall a, a ∈ axes p -> is_Some (rs !! a)) ->
  float_axes p df ->
  exists df' g', inject_block p iv rs df g = Ok (df', g').
Proof.
  intros Hiv Haxes Hmax Hrs Hcols.
  destruct (draw_block_ok p iv g Hiv Haxes) as (s & e & a & g3 & Hdraw).
  pose proof (draw_block_inv _ _ _ _ _ _ _ Hdraw) as (_ & _ & _ & Ha).
  destruct (draw_lift_ok p rs a g3 (Hrs a Ha)) as (lift & g4 & Hlift).
  { intros Hf maxc Hm. apply (Hmax Hf maxc Hm a Ha). }
  destruct (Hcols a Ha) as [xs Hxs].
  unfold inject_block. rewrite Hdraw. cbn. rewrite Hlift. cbn.
  unfold loc_iadd. rewrite Hxs. cbn. eauto.
Qed.

Lemma inject_block_preserves p iv rs df g df' g' :
  inject_block p iv rs df g = Ok (df', g') ->
  index df' = index df /\
  (forall c, c ∉ axes p -> columns df' !! c = columns df !! c) /\
  (float_axes p df -> float_axes p df').
Proof.
  intros H. apply inject_block_inv in H
    as (s & e & a & g3 & lift & xs & Hdraw & _ & Hxs & ->).
  pose proof (draw_block_inv _ _ _ _ _ _ _ Hdraw) as (_ & _ & _ & Ha).
  cbn. split; [reflexivity|]. split.
  - intros c Hc. apply lookup_insert_ne. intros ->. contradiction.
  - intros Hcols b Hb. cbn [columns]. destruct (decide (a = b)) as [->|Hne].
    + rewrite lookup_insert_eq. eauto.
    + rewrite lookup_insert_ne by exact Hne. apply Hcols, Hb.
Qed.

(** *** The injection loop *)


Lemma inject_blocks_ok p iv rs k df g :
  ~ (iv == 0)%Q -> axes p <> [] ->
  (force_above p = true -> forall maxc, MaxC p = Some maxc ->
     forall a, a ∈ axes p -> is_Some (maxc !! a)) ->
  (forall a, a ∈ axes p -> is_Some (rs !! a)) ->
  float_axes p df ->
  exists df' g', inject_blocks p iv rs k df g = Ok (df', g').
Proof.
  intros Hiv Haxes Hmax Hrs. revert df g.
  induction k as [|k IH]; intros df g Hcols; cbn [inject_blocks]; [eauto|].
  destruct (inject_block_ok p iv rs df g Hiv Haxes Hmax Hrs Hcols)
    as (df1 & g1 & E1).
  rewrite E1. cbn. apply IH.
  apply inject_block_preserves in E1 as (_ & _ & H). apply H, Hcols.
Qed.

Lemma last_occurrence (a : string) (l : list string) :
  a ∈ l -> exists j : nat, l !! j = Some a /\ a ∉ drop (S j) l.
Proof.
  induction l as [|x l IH]; intros Ha; [inversion Ha|].
  destruct (decide (a ∈ l)) as [Hin|Hnin].
  - destruct (IH Hin) as (j & Hj & Hlast). exists (S j). split; assumption.
  - exists 0%nat. inversion Ha; subst; [|contradiction]. split; [reflexivity|exact Hnin].
Qed.

(** *** The whole call *)

Lemma make_synthetic_test_ok p e :
  let iv := resolve_interval (sample_interval_sec p) (df_train p) in
  baseline_ready p -> injection_ready p iv ->
  exists rs df0 g0 df g,
    baseline_frame p iv e = Ok (rs, df0, g0) /\
    inject_blocks p iv rs (Z.to_nat (anomaly_blocks p)) df0 g0 = Ok (df, g) /\
    make_synthetic_test p e = Ok (df, iv).
Proof.
  intros iv Hready Hinj.
  destruct (baseline_frame_spec p iv e Hready)
    as (rs & df0 & Hbase & _ & Hrs & _ & _ & Hcols).
  set (g0 := after_noise _ _ _) in Hbase.
  assert (exists df g,
            inject_blocks p iv rs (Z.to_nat (anomaly_blocks p)) df0 g0 = Ok (df, g))
    as (df & g & Hrun).
  { destruct (Z_lt_le_dec 0 (anomaly_blocks p)) as [Hpos|Hle].
    - destruct (Hinj Hpos) as (Hiv & Haxes & Hmax).
      apply inject_blocks_ok; try assumption.
      + intros a Ha. rewrite (Hrs a Ha). eauto.
      + intros a Ha. destruct (last_occurrence a (axes p) Ha) as (j & Hj & Hlast).
        destruct (Hcols j a Hj Hlast) as (m & _ & Hc). eauto.
    - replace (Z.to_nat (anomaly_blocks p)) with 0%nat by lia. cbn. eauto. }
  exists rs, df0, g0, df, g. split; [exact Hbase|]. split; [exact Hrun|].
  unfold make_synthetic_test. fold iv. rewrite Hbase. cbn. rewrite Hrun. reflexivity.
Qed.

End Stages.

(** ** Properties of the generated table *)

Section Table.

Context {Gen : Generator} {Sta : Stats}.
Implicit Types (p : params) (g : rng_state) (df : DataFrame).











(** C7: for every call with [anomaly_blocks = 0] (that meets the
    requirements of the baseline), the call returns, and each axis column of
    the returned table is the pure baseline: row by row, the prediction of
    the axis's model on the elapsed seconds, plus the Gaussian noise drawn
    for that axis, plus [drift_per_sec * elapsed_seconds]; no lift is added
    to any row. *)
Theorem no_blocks_pure_baseline p e :
  let iv := resolve_interval (sample_interval_sec p) (df_train p) in
  let size := Z.to_nat (row_count p) in
  baseline_ready p -> anomaly_blocks p <= 0 ->
  exists df ts,
    make_synthetic_test p e = Ok (df, iv) /\
    make_time_numeric (make_times p iv) = Ok (map Fin ts) /\
    (forall (j : nat) a, axes p !! j = Some a -> a ∉ drop (S j) (axes p) ->
       exists m,
         models p !! a = Some m /\
         float_column df a = Some
           (pure_baseline p m (noise_level p a) ts
              (standard_normal size
                 (after_noise size j (default_rng (seed p) e))).1)).
Proof.
  intros iv size Hready Hzero.
  destruct (baseline_frame_spec p iv e Hready)
    as (rs & df0 & Hbase & _ & _ & _ & _ & Hcols).
  pose proof Hready as (Hn & (m0 & Hm0) & _).
  exists df0, (elapsed_seconds p iv). split; [|split].
  - unfold make_synthetic_test. fold iv. rewrite Hbase. cbn.
    replace (Z.to_nat (anomaly_blocks p)) with 0%nat by lia. reflexivity.
  - apply (make_time_numeric_eq p iv m0); assumption.
  - intros j a Hj Hlast. destruct (Hcols j a Hj Hlast) as (m & Hm & Hc).
    exists m. split; [exact Hm|]. unfold float_column. rewrite Hc. reflexivity.
Qed.

Lemma inject_blocks_app p iv rs (j k : nat) df g :
  inject_blocks p iv rs (j + k) df g
  = '(df', g') ← inject_blocks p iv rs j df g; inject_blocks p iv rs k df' g'.
Proof.
  revert df g. induction j as [|j IH]; intros df g; [reflexivity|].
  cbn [Nat.add inject_blocks].
  destruct (inject_block p iv rs df g) as [[df1 g1]|]; [|reflexivity].
  cbn. apply IH.
Qed.

Lemma inject_blocks_single p iv rs df g :
  inject_blocks p iv rs 1 df g = inject_block p iv rs df g.
Proof.
  cbn [inject_blocks]. destruct (inject_block p iv rs df g) as [[df1 g1]|];
    reflexivity.
Qed.

(** C9: for every anomaly block (round [j] of the injection loop, which
    takes the table [df] to [df']), with
    [block_len_rows = max(1, round(duration / sample_interval_sec))] and end
    index [min(n_rows, start + block_len_rows)], the lift is added to exactly
    the rows from the start index (inclusive) to the end index (exclusive) of
    the selected axis; every other column, and every row of that column
    outside the range, is unchanged by the block. *)
Theorem inject_block_frame p iv rs df0 g0 (j : nat) df g df' g' :
  inject_blocks p iv rs j df0 g0 = Ok (df, g) ->
  inject_blocks p iv rs (S j) df0 g0 = Ok (df', g') ->
  let duration := (uniform (block_min_sec p) (block_max_sec p) g).1 in
  let block_len_rows := Z.max 1 (Py.round (duration / iv)) in
  exists start_idx end_idx axis g3 lift xs xs',
    draw_block p iv g = Ok (start_idx, end_idx, axis, g3) /\
    draw_lift p rs axis g3 = Ok (lift, g') /\
    0 <= start_idx < Z.max 1 (row_count p - block_len_rows) /\
    end_idx = Z.min (row_count p) (start_idx + block_len_rows) /\
    axis ∈ axes p /\
    index df' = index df /\
    (forall c, c <> axis -> columns df' !! c = columns df !! c) /\
    columns df !! axis = Some (FloatCol xs) /\
    columns df' !! axis = Some (FloatCol xs') /\
    length xs' = length xs /\
    (forall (i : nat) x, xs !! i = Some x ->
       xs' !! i = Some (if bool_decide (start_idx <= Z.of_nat i < end_idx)
                        then Np.add x (Fin lift) else x)).
Proof.
  intros Hbefore H duration block_len_rows.
  replace (S j) with (j + 1)%nat in H by lia.
  rewrite inject_blocks_app, Hbefore in H. cbn [mbind result_bind] in H.
  rewrite inject_blocks_single in H.
  apply inject_block_inv in H
    as (s & e & a & g3 & lift & xs & Hdraw & Hlift & Hxs & ->).
  pose proof (draw_block_inv _ _ _ _ _ _ _ Hdraw) as (_ & Hs & He & Ha).
  exists s, e, a, g3, lift, xs, (add_rows s (e - 1) (Fin lift) xs).
  split; [exact Hdraw|]. split; [exact Hlift|].
  split; [exact Hs|]. split; [exact He|]. split; [exact Ha|].
  cbn [index columns]. split; [reflexivity|]. split.
  { intros c Hc. apply lookup_insert_ne. congruence. }
  split; [exact Hxs|]. split; [apply lookup_insert_eq|].
  split; [apply add_rows_length|].
  intros i x Hi. rewrite add_rows_lookup, Hi. cbn. f_equal.
  destruct (bool_decide_reflect (s <= Z.of_nat i < e)) as [Hin|Hout].
  - assert ((s <=? Z.of_nat i) && (Z.of_nat i <=? e - 1) = true) as -> by lia.
    reflexivity.
  - assert ((s <=? Z.of_nat i) && (Z.of_nat i <=? e - 1) = false) as -> by lia.
    reflexivity.
Qed.

(** C8: in threshold-aware mode ([force_above=True] with a threshold
    mapping), when a round of the injection loop selects an axis that has no
    entry in [MaxC], the call raises the [KeyError] of that lookup; it does
    not fall back to the noise-relative lift. *)
Theorem missing_threshold_raises p e maxc rs df0 g0 (j : nat) dfj gj
    start_idx end_idx axis g3 :
  let iv := resolve_interval (sample_interval_sec p) (df_train p) in
  force_above p = true -> MaxC p = Some maxc ->
  baseline_frame p iv e = Ok (rs, df0, g0) ->
  (j < Z.to_nat (anomaly_blocks p))%nat ->
  inject_blocks p iv rs j df0 g0 = Ok (dfj, gj) ->
  draw_block p iv gj = Ok (start_idx, end_idx, axis, g3) ->
  maxc !! axis = None ->
  make_synthetic_test p e = Raise (KeyError axis).
Proof.
  intros iv Hforce Hmax Hbase Hj Hrun Hdraw Hmissing.
  unfold make_synthetic_test. fold iv. rewrite Hbase. cbn.
  replace (Z.to_nat (anomaly_blocks p))
    with (j + S (Z.to_nat (anomaly_blocks p) - S j))%nat by lia.
  rewrite inject_blocks_app, Hrun. cbn.
  unfold inject_block. rewrite Hdraw. cbn.
  unfold draw_lift. rewrite Hforce, Hmax. unfold Py.getitem. rewrite Hmissing.
  reflexivity.
Qed.

Lemma uniform_between (low high : Q) g :
  (low < high)%Q -> (low <= (uniform low high g).1 < high)%Q.
Proof.
  intros Hlt. unfold uniform. pose proof (random_range g) as Hu.
  destruct (random g) as [u g1]. cbn [fst] in *. nra.
Qed.



(** C3: the result is a function of the arguments alone once a seed is
    given: two invocations with the same arguments, whatever entropy the
    operating system holds at the time of each, return equal tables and
    equal sampling intervals (or raise the same exception). *)
Theorem make_synthetic_test_deterministic p (s : Z) (e1 e2 : entropy) :
  seed p = Some s ->
  make_synthetic_test p e1 = make_synthetic_test p e2.
Proof.
  intros Hseed. unfold make_synthetic_test, baseline_frame.
  rewrite Hseed, (default_rng_seeded s e1 e2). reflexivity.
Qed.

(** C1 (the code departs from it): a call that asks for no row never
    reaches the table: [times[0]] raises [IndexError]. *)
Theorem zero_rows_raises p e :
  row_count p <= 0 -> make_synthetic_test p e = Raise IndexError.
Proof.
  intros Hn. unfold make_synthetic_test, baseline_frame, make_times.
  assert (seqZ 0 (row_count p) = []) as ->.
  { apply length_zero_iff_nil. rewrite length_seqZ. lia. }
  reflexivity.
Qed.

(** C2 (the code departs from it): a forced block adds
    [|MaxC[axis]| * U(1.2, 1.5)] to the baseline, so a baseline below zero
    can leave the block under the threshold.  In [below_threshold_call] the
    only row belongs to the only block, on the axis "a1" with
    [MaxC["a1"] = 10], and the returned value lies in [[7, 10)], whatever the
    generator draws. *)
Theorem forced_block_stays_below_threshold (e : entropy) :
  let p := below_threshold_call in
  let iv := resolve_interval (sample_interval_sec p) (df_train p) in
  (forall g start_idx end_idx axis g3,
     draw_block p iv g = Ok (start_idx, end_idx, axis, g3) ->
     start_idx = 0 /\ end_idx = 1 /\ axis = "a1") /\
  exists df xs x,
    make_synthetic_test p e = Ok (df, iv) /\
    float_column df "a1" = Some xs /\
    xs !! 0%nat = Some (Fin x) /\
    (7 <= x < 10)%Q.
Proof.
  intros p iv.
  assert (forall g s e' a g3, draw_block p iv g = Ok (s, e', a, g3) ->
            s = 0 /\ e' = 1 /\ a = "a1") as Hblock.
  { intros g s e' a g3 Hdraw.
    apply draw_block_inv in Hdraw as (_ & Hs & He & Ha).
    change (row_count p) with 1 in Hs, He.
    apply list_elem_of_singleton in Ha. split; [lia|]. split; [lia|exact Ha]. }
  split; [exact Hblock|].
  assert (baseline_ready p) as Hready.
  { split; [vm_compute; discriminate|]. split; [eexists; reflexivity|]. split.
    - intros a Ha. apply list_elem_of_singleton in Ha as ->. eexists. reflexivity.
    - intros rd [= <-] _ a Ha. apply list_elem_of_singleton in Ha as ->.
      eexists. reflexivity. }
  assert (injection_ready p iv) as Hinj.
  { intros _. split; [vm_compute; discriminate|]. split; [discriminate|].
    intros _ maxc [= <-] a Ha. apply list_elem_of_singleton in Ha as ->.
    eexists. reflexivity. }
  destruct (make_synthetic_test_ok p e Hready Hinj)
    as (rs & df0 & g0 & df & g & Hbase & Hrun & Hcall).
  destruct (baseline_frame_spec p iv e Hready)
    as (rs' & df0' & Hbase' & _ & Hrs & _ & _ & Hcols).
  fold iv in Hbase. rewrite Hbase in Hbase'. injection Hbase' as <- <- _.
  destruct (Hcols 0%nat "a1" eq_refl) as (m & Hm & Hcol);
    [cbn; apply not_elem_of_nil|].
  assert (m = {| coef_ := 0; intercept_ := -5 |}) as ->
    by (vm_compute in Hm; congruence).
  change (Z.to_nat (anomaly_blocks p)) with 1%nat in Hrun.
  rewrite inject_blocks_single in Hrun.
  apply inject_block_inv in Hrun
    as (s & e' & a & g3 & lift & xs & Hdraw & Hlift & Hxs & Hdf).
  destruct (Hblock _ _ _ _ _ Hdraw) as (-> & -> & ->).
  (* the baseline of the single row *)
  change (Z.to_nat (row_count p)) with 1%nat in Hcol.
  pose proof (standard_normal_length 1 (after_noise 1 0 (default_rng (seed p) e)))
    as Hlen.
  destruct (standard_normal 1 (after_noise 1 0 (default_rng (seed p) e))).1
    as [|z [|z' zs]]; try discriminate Hlen.
  set (t0 := elapsed_ns iv 0 # 1000000000).
  change (elapsed_seconds p iv) with [t0] in Hcol.
  change (pure_baseline p {| coef_ := 0; intercept_ := -5 |}
            (noise_level p "a1") [t0] [z])
    with [Fin ((0 * t0 + -5) + (0 + noise_level p "a1" * z) + 0 * t0)%Q] in Hcol.
  rewrite Hcol in Hxs. injection Hxs as <-.
  (* the lift *)
  rewrite (draw_lift_forced p rs "a1" g3 {["a1" := 10%Q]} 10%Q) in Hlift
    by reflexivity.
  pose proof (uniform_between (12 # 10) (15 # 10) g3 eq_refl) as Hu.
  destruct (uniform (12 # 10) (15 # 10) g3) as [u g4]. cbn [fst snd] in Hu, Hlift.
  injection Hlift as <- _.
  (* the noise level is zero *)
  assert (noise_level p "a1" == 0)%Q as Hsd by (apply (std_constant 0%Q 2); lia).
  assert (noise_level p "a1" * z == 0)%Q as Hz by (rewrite Hsd; ring).
  exists df, [Fin ((0 * t0 + -5) + (0 + noise_level p "a1" * z) + 0 * t0
                   + Qabs 10 * u)%Q],
    ((0 * t0 + -5) + (0 + noise_level p "a1" * z) + 0 * t0 + Qabs 10 * u)%Q.
  split; [exact Hcall|]. split.
  { rewrite Hdf. unfold float_column. cbn [columns].
    rewrite lookup_insert_eq. reflexivity. }
  split; [reflexivity|].
  change (Qabs 10) with 10%Q. lra.
Qed.

End Table.

(** ** Further properties: how blocks accumulate *)

Section Accumulation.

Context {Gen : Generator} {Sta : Stats}.
Implicit Types (p : params) (g : rng_state) (df : DataFrame).

Lemma add_rows_apply_block s e a lift xs (i : nat) x :
  xs !! i = Some x ->
  add_rows s (e - 1) (Fin lift) xs !! i
  = Some (apply_block a i x
            {| block_start := s; block_end := e;
               block_axis := a; block_lift := lift |}).
Proof.
  intros Hx. rewrite add_rows_lookup, Hx. cbn [fmap option_fmap option_map].
  unfold apply_block, covers. cbn [block_axis block_start block_end block_lift].
  rewrite bool_decide_eq_true_2 by reflexivity. cbn [andb].
  destruct (s <=? Z.of_nat i) eqn:E1; cbn [andb]; [|reflexivity].
  destruct (Z.of_nat i <=? e - 1) eqn:E2, (Z.of_nat i <? e) eqn:E3;
    try reflexivity; lia.
Qed.

Lemma apply_block_other c a s e lift (i : nat) x :
  a <> c ->
  apply_block c i x
    {| block_start := s; block_end := e; block_axis := a; block_lift := lift |}
  = x.
Proof.
  intros Hne. unfold apply_block, covers. cbn [block_axis].
  rewrite bool_decide_eq_false_2 by exact Hne. reflexivity.
Qed.

Lemma inject_blocks_trace p iv rs k df g df' g' :
  inject_blocks p iv rs k df g = Ok (df', g') ->
  length (block_trace p iv rs k g) = k /\
  index df' = index df /\
  (forall c ts, columns df !! c = Some (DatetimeCol ts) ->
     columns df' !! c = Some (DatetimeCol ts)) /\
  (forall c, columns df !! c = None -> columns df' !! c = None) /\
  (forall c xs, columns df !! c = Some (FloatCol xs) ->
     exists xs', columns df' !! c = Some (FloatCol xs') /\
       length xs' = length xs /\
       forall (i : nat) x, xs !! i = Some x ->
         xs' !! i = Some (accumulate c i x (block_trace p iv rs k g))).
Proof.
  revert df g. induction k as [|k IH]; intros df g; cbn [inject_blocks].
  - intros [= <- <-]. cbn [block_trace]. repeat split; try auto.
    intros c xs Hc. exists xs. repeat split; auto.
  - destruct (inject_block p iv rs df g) as [[df1 g1]|] eqn:E1; [|discriminate].
    cbn [mbind result_bind]. intros Hrest.
    apply inject_block_inv in E1
      as (s & e & a & g3 & lift & xs_a & Hdraw & Hlift & Hxs & ->).
    destruct (IH _ _ Hrest) as (Hlen & Hidx & Hdt & Hnone & Hfl).
    cbn [block_trace]. rewrite Hdraw, Hlift.
    cbn [index columns] in *.
    split; [cbn [length]; congruence|]. split; [exact Hidx|].
    split; [|split].
    + intros c ts Hc. apply Hdt. rewrite lookup_insert_ne; [exact Hc|congruence].
    + intros c Hc. apply Hnone. rewrite lookup_insert_ne; [exact Hc|congruence].
    + intros c xs Hc. destruct (decide (a = c)) as [<-|Hne].
      * rewrite Hxs in Hc. injection Hc as <-.
        destruct (Hfl a (add_rows s (e - 1) (Fin lift) xs_a))
          as (xs' & Hc' & Hl' & Hcells); [apply lookup_insert_eq|].
        exists xs'. split; [exact Hc'|]. split.
        { rewrite Hl'. apply add_rows_length. }
        intros i x Hx. cbn [accumulate foldl].
        apply Hcells. apply add_rows_apply_block, Hx.
      * destruct (Hfl c xs) as (xs' & Hc' & Hl' & Hcells).
        { rewrite lookup_insert_ne by exact Hne. exact Hc. }
        exists xs'. split; [exact Hc'|]. split; [exact Hl'|].
        intros i x Hx. cbn [accumulate foldl].
        rewrite apply_block_other by exact Hne. apply Hcells, Hx.
Qed.

Lemma make_synthetic_test_inv p e df iv :
  make_synthetic_test p e = Ok (df, iv) ->
  iv = resolve_interval (sample_interval_sec p) (df_train p) /\
  exists rs df0 g0 g,
    baseline_frame p iv e = Ok (rs, df0, g0) /\
    inject_blocks p iv rs (Z.to_nat (anomaly_blocks p)) df0 g0 = Ok (df, g).
Proof.
  unfold make_synthetic_test.
  destruct (baseline_frame p _ e) as [[[rs df0] g0]|] eqn:Hbase; [|discriminate].
  cbn [mbind result_bind].
  destruct (inject_blocks p _ rs _ df0 g0) as [[df1 g1]|] eqn:Hrun; [|discriminate].
  cbn [mbind result_bind]. intros [= <- <-].
  split; [reflexivity|]. exists rs, df0, g0, g1. split; assumption.
Qed.

Lemma draw_lift_inv p rs axis g lift g' :
  draw_lift p rs axis g = Ok (lift, g') ->
  exists c low high u,
    (lift = Qabs c * u)%Q /\ (low <= u < high)%Q /\ (0 < low)%Q /\
    match force_above p, MaxC p with
    | true, Some maxc =>
        maxc !! axis = Some c /\ low = 12 # 10 /\ high = 15 # 10
    | _, _ => rs !! axis = Some c /\ low = 25 # 10 /\ high = 4%Q
    end.
Proof.
  unfold draw_lift, Py.getitem.
  pose proof (uniform_between (12 # 10) (15 # 10) g eq_refl) as Hforced.
  pose proof (uniform_between (25 # 10) 4 g eq_refl) as Hnoise.
  destruct (force_above p), (MaxC p) as [maxc|];
    try (destruct (rs !! axis) as [sd|]; [|discriminate];
         cbn [mbind result_bind];
         destruct (uniform (25 # 10) 4 g) as [u g1]; intros [= <- <-];
         exists sd, (25 # 10), 4%Q, u; repeat split; try reflexivity; apply Hnoise).
  destruct (maxc !! axis) as [c|]; [|discriminate]. cbn [mbind result_bind].
  destruct (uniform (12 # 10) (15 # 10) g) as [u g1]. intros [= <- <-].
  exists c, (12 # 10), (15 # 10), u. repeat split; try reflexivity; apply Hforced.
Qed.

Lemma draw_lift_nonneg p rs axis g lift g' :
  draw_lift p rs axis g = Ok (lift, g') -> (0 <= lift)%Q.
Proof.
  intros H. apply draw_lift_inv in H as (c & low & high & u & -> & [Hlo _] & Hpos & _).
  apply Qmult_le_0_compat; [apply Qabs_nonneg|].
  apply Qlt_le_weak. eapply Qlt_le_trans; eassumption.
Qed.

Lemma block_trace_lifts p iv rs k g :
  Forall (fun b => (0 <= block_lift b)%Q) (block_trace p iv rs k g).
Proof.
  revert g. induction k as [|k IH]; intros g; cbn [block_trace]; [constructor|].
  destruct (draw_block p iv g) as [[[[s e] a] g3]|]; [|constructor].
  destruct (draw_lift p rs a g3) as [[lift g4]|] eqn:Hl; [|constructor].
  constructor; [|apply IH]. cbn. eapply draw_lift_nonneg, Hl.
Qed.

Lemma accumulate_nonneg c (i : nat) (x : Q) trace :
  Forall (fun b => (0 <= block_lift b)%Q) trace ->
  exists x', accumulate c i (Fin x) trace = Fin x' /\ (x <= x')%Q.
Proof.
  intros H. revert x. induction H as [|b trace Hb _ IH]; intros x.
  - exists x. split; [reflexivity|apply Qle_refl].
  - cbn [accumulate foldl]. unfold apply_block at 2.
    destruct (covers b c i).
    + destruct (IH (x + block_lift b)%Q) as (x' & Hx' & Hle).
      exists x'. split; [exact Hx'|]. lra.
    + apply IH.
Qed.

(** X1: every block lies inside the table and is not empty: when the table
    has a row, a drawn block has [0 <= start < end <= n_rows], spans at most
    [block_len_rows] rows, and is on one of the axes. *)
Theorem block_within_table p iv g start_idx end_idx axis g3 :
  1 <= row_count p ->
  draw_block p iv g = Ok (start_idx, end_idx, axis, g3) ->
  let duration := (uniform (block_min_sec p) (block_max_sec p) g).1 in
  0 <= start_idx < end_idx /\
  end_idx <= row_count p /\
  end_idx - start_idx <= Z.max 1 (Py.round (duration / iv)) /\
  axis ∈ axes p.
Proof.
  intros Hn Hdraw duration.
  apply draw_block_inv in Hdraw as (_ & Hs & He & Ha).
  fold duration in Hs, He. split; [lia|]. split; [lia|]. split; [lia|exact Ha].
Qed.

(** X2: a lift is never negative.  In threshold-aware mode with a mapping it
    lies between 1.2 and 1.5 times [|MaxC[axis]|]; otherwise between 2.5 and
    4 times [|res_std[axis]|]. *)
Theorem lift_bounds p rs axis g lift g' :
  draw_lift p rs axis g = Ok (lift, g') ->
  (0 <= lift)%Q /\
  match force_above p, MaxC p with
  | true, Some maxc =>
      exists c, maxc !! axis = Some c /\
        ((12 # 10) * Qabs c <= lift <= (15 # 10) * Qabs c)%Q
  | _, _ =>
      exists sd, rs !! axis = Some sd /\
        ((25 # 10) * Qabs sd <= lift <= 4 * Qabs sd)%Q
  end.
Proof.
  intros H. split; [eapply draw_lift_nonneg, H|].
  apply draw_lift_inv in H as (c & low & high & u & -> & Hu & _ & Hcase).
  pose proof (Qabs_nonneg c) as Hc.
  destruct (force_above p), (MaxC p) as [maxc|];
    destruct Hcase as (Hlook & -> & ->); exists c; (split; [exact Hlook|]); nra.
Qed.

(** X3: blocks accumulate additively, in the order of the rounds: in the
    returned table every cell of a float column is the baseline cell with
    the lift of each block that covers it added in turn; overlapping blocks
    add up, and the column lengths are those of the baseline. *)
Theorem blocks_accumulate p e df iv :
  make_synthetic_test p e = Ok (df, iv) ->
  exists rs df0 g0,
    baseline_frame p iv e = Ok (rs, df0, g0) /\
    let trace := block_trace p iv rs (Z.to_nat (anomaly_blocks p)) g0 in
    length trace = Z.to_nat (anomaly_blocks p) /\
    forall c xs, float_column df0 c = Some xs ->
      exists xs', float_column df c = Some xs' /\
        length xs' = length xs /\
        forall (i : nat) x, xs !! i = Some x ->
          xs' !! i = Some (accumulate c i x trace).
Proof.
  intros H. apply make_synthetic_test_inv in H as (_ & rs & df0 & g0 & g & Hbase & Hrun).
  exists rs, df0, g0. split; [exact Hbase|].
  apply inject_blocks_trace in Hrun as (Hlen & _ & _ & _ & Hfl).
  split; [exact Hlen|].
  intros c xs Hc. unfold float_column in Hc.
  destruct (columns df0 !! c) as [[ts|xs0]|] eqn:E; try discriminate.
  injection Hc as ->. destruct (Hfl c xs E) as (xs' & Hc' & Hl & Hcells).
  exists xs'. unfold float_column. rewrite Hc'. auto.
Qed.

(** X4: injection never lowers a value: every finite cell of the returned
    table is at least the baseline cell it started from. *)
Theorem injection_never_lowers p e df iv rs df0 g0 c xs (i : nat) (x : Q) :
  make_synthetic_test p e = Ok (df, iv) ->
  baseline_frame p iv e = Ok (rs, df0, g0) ->
  float_column df0 c = Some xs ->
  xs !! i = Some (Fin x) ->
  exists xs' x',
    float_column df c = Some xs' /\
    xs' !! i = Some (Fin x') /\
    (x <= x')%Q.
Proof.
  intros H Hbase Hc Hx.
  apply make_synthetic_test_inv in H as (_ & rs' & df0' & g0' & g & Hbase' & Hrun).
  rewrite Hbase in Hbase'. injection Hbase' as <- <- <-.
  apply inject_blocks_trace in Hrun as (_ & _ & _ & _ & Hfl).
  unfold float_column in Hc.
  destruct (columns df0 !! c) as [[ts|xs0]|] eqn:E; try discriminate.
  injection Hc as ->. destruct (Hfl c xs E) as (xs' & Hc' & _ & Hcells).
  destruct (accumulate_nonneg c i x _
              (block_trace_lifts p iv rs (Z.to_nat (anomaly_blocks p)) g0))
    as (x' & Hx' & Hle).
  exists xs', x'. unfold float_column. rewrite Hc'.
  split; [reflexivity|]. split; [|exact Hle].
  rewrite (Hcells i _ Hx). f_equal. exact Hx'.
Qed.

End Accumulation.

(** ** Further properties: the shape of the returned table *)

Section Shape.

Context {Gen : Generator} {Sta : Stats}.
Implicit Types (p : params) (g : rng_state) (df : DataFrame).

Lemma mapM_finite_inv (X : list float) (xs : list Q) :
  mapM finite_value X = Ok xs -> X = map Fin xs.
Proof.
  revert xs. induction X as [|x X IH]; intros xs.
  - cbn. intros [= <-]. reflexivity.
  - cbn. destruct x as [q| |]; cbn; try discriminate.
    destruct (mapM finite_value X) as [ys|] eqn:E; cbn; [|discriminate].
    intros [= <-]. cbn. f_equal. apply IH. reflexivity.
Qed.

Lemma predict_length m X yhat :
  predict m X = Ok yhat -> length yhat = length X.
Proof.
  unfold predict. destruct X as [|x X]; [discriminate|].
  destruct (mapM finite_value (x :: X)) as [xs|] eqn:E; [|discriminate].
  cbn [mbind result_bind]. intros [= <-].
  apply mapM_finite_inv in E. rewrite E, !length_map. reflexivity.
Qed.

Lemma normal_length loc sd size g noise g' :
  normal loc sd size g = Ok (noise, g') -> length noise = Z.to_nat size.
Proof.
  unfold normal. destruct (Np.Qnegative sd || (size <? 0)); [discriminate|].
  pose proof (standard_normal_length (Z.to_nat size) g) as Hlen.
  destruct (standard_normal (Z.to_nat size) g) as [zs g1]. cbn [fst] in Hlen.
  intros [= <- <-]. rewrite length_map. exact Hlen.
Qed.

Lemma baseline_inv p rs tn todo data g data' g' :
  baseline p rs tn todo data g = Ok (data', g') ->
  length tn = Z.to_nat (row_count p) ->
  (forall c, c ∉ todo -> data' !! c = data !! c) /\
  (forall c, c ∈ todo ->
     is_Some (models p !! c) /\
     exists xs, data' !! c = Some (FloatCol xs) /\
       length xs = Z.to_nat (row_count p)).
Proof.
  intros Hrun Htn. revert data g Hrun.
  induction todo as [|axis todo IH]; intros data g; cbn [baseline].
  - intros [= <- <-]. split; [reflexivity|]. intros c Hc. inversion Hc.
  - unfold Py.getitem.
    destruct (models p !! axis) as [m|] eqn:Hm; [|discriminate].
    cbn [mbind result_bind].
    destruct (predict m tn) as [yhat|] eqn:Hy; [|discriminate].
    cbn [mbind result_bind].
    destruct (rs !! axis) as [sd|]; [|discriminate]. cbn [mbind result_bind].
    destruct (normal 0 sd (row_count p) g) as [[noise g1]|] eqn:Hnoise;
      [|discriminate].
    cbn [mbind result_bind]. intros Hrest.
    destruct (IH _ _ Hrest) as (Hframe & Hcols).
    apply predict_length in Hy. apply normal_length in Hnoise.
    split.
    + intros c Hc. rewrite Hframe by (intros H; apply Hc; right; exact H).
      apply lookup_insert_ne. intros ->. apply Hc. left.
    + intros c Hc. destruct (decide (c ∈ todo)) as [Hin|Hnin];
        [apply Hcols, Hin|].
      inversion Hc; subst; [|contradiction].
      split; [eauto|]. rewrite Hframe by exact Hnin.
      rewrite lookup_insert_eq. eexists. split; [reflexivity|].
      unfold array_add. rewrite !length_zip_with, !length_map. lia.
Qed.

Lemma make_time_numeric_inv times tn :
  make_time_numeric times = Ok tn ->
  (0 < length times)%nat /\ length tn = length times.
Proof.
  destruct times as [|t0 times]; [discriminate|]. cbn [make_time_numeric].
  intros [= <-]. cbn [length map]. rewrite ?length_map. lia.
Qed.

Lemma baseline_frame_inv p iv e rs df0 g0 :
  baseline_frame p iv e = Ok (rs, df0, g0) ->
  let size := Z.to_nat (row_count p) in
  1 <= row_count p /\
  index df0 = size /\
  (forall c, c ∈ axes p ->
     is_Some (models p !! c) /\
     exists xs, columns df0 !! c = Some (FloatCol xs) /\ length xs = size) /\
  ("time" ∉ axes p ->
     columns df0 !! "time" = Some (DatetimeCol (make_times p iv))) /\
  ("time_numeric" ∉ axes p ->
     exists tn, columns df0 !! "time_numeric" = Some (FloatCol tn) /\
       length tn = size) /\
  (forall c, c ∉ axes p -> c <> "time" -> c <> "time_numeric" ->
     columns df0 !! c = None).
Proof.
  unfold baseline_frame.
  destruct (make_time_numeric (make_times p iv)) as [tn|] eqn:Htn; [|discriminate].
  cbn [mbind result_bind].
  destruct (residual_std p) as [rs'|]; [|discriminate]. cbn [mbind result_bind].
  destruct (baseline p rs' tn (axes p) _ _) as [[data' g1]|] eqn:Hrun;
    [|discriminate].
  cbn [mbind result_bind]. intros [= <- <- <-].
  apply make_time_numeric_inv in Htn as (Hpos & Hlen).
  rewrite make_times_length in Hpos, Hlen.
  apply baseline_inv in Hrun as (Hframe & Hcols); [|exact Hlen].
  cbn [index columns].
  split; [lia|]. split; [apply make_times_length|]. split; [exact Hcols|].
  split; [|split].
  - intros Ht. rewrite Hframe by exact Ht.
    rewrite lookup_insert_ne by done. apply lookup_insert_eq.
  - intros Ht. exists tn. rewrite Hframe by exact Ht.
    split; [apply lookup_insert_eq|exact Hlen].
  - intros c Hc Ht Htn'. rewrite Hframe by exact Hc.
    rewrite !lookup_insert_ne by congruence. apply lookup_empty.
Qed.

(** X5: a returned table is internally consistent: it has [n_rows >= 1]
    rows, its columns are exactly "time", "time_numeric" and the axes, every
    column has one entry per row, and every axis column is a float column
    whose axis has a model. *)
Theorem returned_table_shape p e df iv :
  make_synthetic_test p e = Ok (df, iv) ->
  1 <= row_count p /\
  index df = Z.to_nat (row_count p) /\
  (forall c, is_Some (columns df !! c) <->
     c = "time" \/ c = "time_numeric" \/ c ∈ axes p) /\
  (forall c col, columns df !! c = Some col -> column_length col = index df) /\
  (forall a, a ∈ axes p ->
     is_Some (float_column df a) /\ is_Some (models p !! a)).
Proof.
  intros H. apply make_synthetic_test_inv in H
    as (_ & rs & df0 & g0 & g & Hbase & Hrun).
  apply baseline_frame_inv in Hbase
    as (Hn & Hidx & Hax & Htime & Hnum & Hnone).
  apply inject_blocks_trace in Hrun as (_ & Hindex & Hdt & Hno & Hfl).
  assert (forall c, c = "time" \/ c = "time_numeric" \/ c ∈ axes p ->
            exists col, columns df0 !! c = Some col /\
              column_length col = Z.to_nat (row_count p)) as Hsome.
  { intros c Hc. destruct (decide (c ∈ axes p)) as [Hin|Hnin].
    - destruct (Hax c Hin) as (_ & xs & Hxs & Hl). eauto.
    - destruct Hc as [->|[->|Hin]]; [| |contradiction].
      + rewrite (Htime Hnin). eexists. split; [reflexivity|].
        apply make_times_length.
      + destruct (Hnum Hnin) as (tn & -> & Hl). eauto. }
  assert (forall c col, columns df0 !! c = Some col ->
            exists col', columns df !! c = Some col' /\
              column_length col' = column_length col) as Hkeep.
  { intros c [ts|xs] Hc.
    - rewrite (Hdt c ts Hc). eauto.
    - destruct (Hfl c xs Hc) as (xs' & -> & Hl & _). eauto. }
  split; [exact Hn|]. split; [congruence|]. split; [|split].
  - intros c. split.
    + intros [col Hcol]. destruct (decide (c ∈ axes p)) as [Hin|Hnin]; [auto|].
      destruct (decide (c = "time")) as [->|Ht]; [auto|].
      destruct (decide (c = "time_numeric")) as [->|Hn']; [auto|].
      rewrite (Hno c (Hnone c Hnin Ht Hn')) in Hcol. discriminate.
    + intros Hc. destruct (Hsome c Hc) as (col & Hcol & _).
      destruct (Hkeep c col Hcol) as (col' & Hcol' & _). eauto.
  - intros c col Hcol.
    destruct (columns df0 !! c) as [col0|] eqn:E.
    + destruct (Hkeep c col0 E) as (col' & Hcol' & Hl).
      rewrite Hcol in Hcol'. injection Hcol' as <-. rewrite Hl, Hindex, Hidx.
      destruct (Hsome c) as (col1 & Hcol1 & Hl1).
      { destruct (decide (c ∈ axes p)) as [Hin|Hnin]; [auto|].
        destruct (decide (c = "time")) as [->|Ht]; [auto|].
        destruct (decide (c = "time_numeric")) as [->|Hn']; [auto|].
        rewrite (Hnone c Hnin Ht Hn') in E. discriminate. }
      rewrite E in Hcol1. injection Hcol1 as <-. exact Hl1.
    + rewrite (Hno c E) in Hcol. discriminate.
  - intros a Ha. destruct (Hax a Ha) as (Hm & xs & Hxs & _).
    split; [|exact Hm]. destruct (Hfl a xs Hxs) as (xs' & Hxs' & _).
    unfold float_column. rewrite Hxs'. eauto.
Qed.

Lemma round_bounds (x : Q) : Qfloor x <= Py.round x <= Qfloor x + 1.
Proof.
  unfold Py.round. destruct (x - inject_Z (Qfloor x) ?= 1 # 2)%Q; [|lia|lia].
  destruct (Z.even (Qfloor x)); lia.
Qed.

Lemma round_mono (x y : Q) : (x <= y)%Q -> Py.round x <= Py.round y.
Proof.
  intros Hxy. pose proof (Qfloor_resp_le x y Hxy) as Hf.
  destruct (Z_lt_le_dec (Qfloor x) (Qfloor y)) as [Hlt|Hge].
  - pose proof (round_bounds x). pose proof (round_bounds y). lia.
  - assert (Qfloor y = Qfloor x) as E by lia.
    unfold Py.round. rewrite E.
    destruct (Qcompare_spec (x - inject_Z (Qfloor x)) (1 # 2)) as [Hx|Hx|Hx];
      destruct (Qcompare_spec (y - inject_Z (Qfloor x)) (1 # 2)) as [Hy|Hy|Hy];
      try lia; try (destruct (Z.even (Qfloor x)); lia); exfalso; lra.
Qed.

Lemma ns_of_mono (x y : Q) : (x <= y)%Q -> ns_of x <= ns_of y.
Proof.
  intros Hxy. unfold ns_of. apply round_mono.
  apply Qmult_le_compat_r; [exact Hxy|]. discriminate.
Qed.

Lemma ns_of_nonneg (x : Q) : (0 <= x)%Q -> 0 <= ns_of x.
Proof. intros Hx. change 0 with (ns_of 0). apply ns_of_mono, Hx. Qed.

Lemma scale_mono (i j : Z) (iv : Q) :
  i <= j -> (0 <= iv)%Q -> (inject_Z i * iv <= inject_Z j * iv)%Q.
Proof.
  intros Hij Hiv. apply Qmult_le_compat_r; [|exact Hiv].
  rewrite <- Zle_Qle. exact Hij.
Qed.

(** X6: for a non-negative interval, whole nanoseconds or not, time never
    goes back: the returned time column has one timestamp per row, in
    non-decreasing order, none before the last training timestamp; no axis
    and no block changes it. *)
Theorem time_never_goes_back p e df iv m :
  make_synthetic_test p e = Ok (df, iv) ->
  "time" ∉ axes p ->
  Pd.max (df_train p) = Ts m ->
  (0 <= iv)%Q ->
  exists times,
    datetime_column df "time" = Some times /\
    length times = Z.to_nat (row_count p) /\
    nondecreasing times /\
    (forall (i : nat) t, times !! i = Some t -> ts_le (Ts m) t).
Proof.
  intros H Htime Hm Hiv. apply make_synthetic_test_inv in H
    as (_ & rs & df0 & g0 & g & Hbase & Hrun).
  apply baseline_frame_inv in Hbase as (_ & _ & _ & Hcol & _).
  apply inject_blocks_trace in Hrun as (_ & _ & Hdt & _).
  exists (make_times p iv). split.
  { unfold datetime_column. rewrite (Hdt _ _ (Hcol Htime)). reflexivity. }
  split; [apply make_times_length|].
  rewrite (make_times_eq p iv m Hm). split.
  - intros i j t u Hij Ht Hu. rewrite list_lookup_fmap in Ht, Hu.
    destruct (seqZ 0 (row_count p) !! i) as [a|] eqn:Ea; [|discriminate].
    destruct (seqZ 0 (row_count p) !! j) as [b|] eqn:Eb; [|discriminate].
    apply lookup_seqZ in Ea as [-> _]. apply lookup_seqZ in Eb as [-> _].
    cbn in Ht, Hu. injection Ht as <-. injection Hu as <-. cbn [ts_le].
    assert (ns_of (inject_Z (0 + Z.of_nat i) * iv)
            <= ns_of (inject_Z (0 + Z.of_nat j) * iv)) as Hle
      by (apply ns_of_mono, scale_mono; [lia|exact Hiv]).
    lia.
  - intros i t Ht. rewrite list_lookup_fmap in Ht.
    destruct (seqZ 0 (row_count p) !! i) as [a|] eqn:Ea; [|discriminate].
    apply lookup_seqZ in Ea as [-> _]. cbn in Ht. injection Ht as <-.
    cbn [ts_le].
    pose proof (ns_of_nonneg iv Hiv).
    assert (0 <= ns_of (inject_Z (0 + Z.of_nat i) * iv)) as Hle.
    { apply ns_of_nonneg. apply Qmult_le_0_compat; [|exact Hiv].
      change 0%Q with (inject_Z 0). rewrite <- Zle_Qle. lia. }
    lia.
Qed.

End Shape.

(** ** Further properties: which exception a call raises *)

Section Failures.

Context {Gen : Generator} {Sta : Stats}.
Implicit Types (p : params) (g : rng_state) (df : DataFrame).

Lemma make_time_numeric_some p iv :
  1 <= row_count p ->
  exists tn, make_time_numeric (make_times p iv) = Ok tn.
Proof.
  intros Hn. unfold make_times. rewrite seqZ_cons by lia.
  cbn [map make_time_numeric]. eauto.
Qed.

Lemma dict_comprehension_raise {V} (f : string -> result V) pre a post acc err :
  (forall k, k ∈ pre -> exists v, f k = Ok v) ->
  f a = Raise err ->
  dict_comprehension f (pre ++ a :: post) acc = Raise err.
Proof.
  revert acc. induction pre as [|k pre IH]; intros acc Hpre Ha.
  - cbn. rewrite Ha. reflexivity.
  - destruct (Hpre k) as [v Hv]; [left|].
    cbn. rewrite Hv. cbn. apply IH; [|exact Ha].
    intros k' Hk'. apply Hpre. right. exact Hk'.
Qed.

Lemma residual_std_covers p :
  (forall rd, residuals_dict p = Some rd -> rd <> ∅ ->
     forall a, a ∈ axes p -> is_Some (rd !! a)) ->
  exists rs, residual_std p = Ok rs /\
    forall a, a ∈ axes p -> rs !! a = Some (noise_level p a).
Proof.
  intros Hrd. unfold residual_std, noise_level.
  destruct (residuals_dict p) as [rd|].
  - unfold Py.truthy. destruct (bool_decide_reflect (rd = ∅)) as [E|E]; cbn [negb].
    + destruct (dict_comprehension_lookup (fun _ => Ok 1%Q) (axes p) ∅)
        as (m & Hm & Hl); [eauto|].
      exists m. split; [exact Hm|]. intros a Ha.
      rewrite Hl, decide_True by exact Ha. reflexivity.
    + destruct (dict_comprehension_lookup
                  (fun a => r ← Py.getitem rd a; Ok (std r)) (axes p) ∅)
        as (m & Hm & Hl).
      { intros k Hk. destruct (Hrd rd eq_refl E k Hk) as [r Hr].
        exists (std r). unfold Py.getitem. rewrite Hr. reflexivity. }
      exists m. split; [exact Hm|]. intros a Ha.
      rewrite Hl, decide_True by exact Ha.
      destruct (Hrd rd eq_refl E a Ha) as [r Hr].
      unfold Py.getitem. rewrite Hr. reflexivity.
  - destruct (dict_comprehension_lookup (fun _ => Ok 1%Q) (axes p) ∅)
      as (m & Hm & Hl); [eauto|].
    exists m. split; [exact Hm|]. intros a Ha.
    rewrite Hl, decide_True by exact Ha. reflexivity.
Qed.

Lemma baseline_app p rs tn l1 l2 data g :
  baseline p rs tn (l1 ++ l2) data g
  = '(d, g1) ← baseline p rs tn l1 data g; baseline p rs tn l2 d g1.
Proof.
  revert data g. induction l1 as [|axis l1 IH]; intros data g; [reflexivity|].
  cbn [app baseline].
  destruct (Py.getitem (models p) axis) as [m|]; [|reflexivity].
  cbn [mbind result_bind].
  destruct (predict m tn) as [yhat|]; [|reflexivity]. cbn [mbind result_bind].
  destruct (Py.getitem rs axis) as [sd|]; [|reflexivity]. cbn [mbind result_bind].
  destruct (normal 0 sd (row_count p) g) as [[noise g1]|]; [|reflexivity].
  cbn [mbind result_bind]. apply IH.
Qed.

(** X7: residuals must cover every axis: when a non-empty [residuals_dict]
    lacks an axis, a call for at least one row raises [KeyError] for the
    first such axis, before any model is consulted. *)
Theorem missing_residuals_raise p e rd pre a post :
  1 <= row_count p ->
  residuals_dict p = Some rd -> rd <> ∅ ->
  axes p = pre ++ a :: post ->
  (forall b, b ∈ pre -> is_Some (rd !! b)) ->
  rd !! a = None ->
  make_synthetic_test p e = Raise (KeyError a).
Proof.
  intros Hn Hrd Hne Haxes Hpre Ha.
  unfold make_synthetic_test, baseline_frame.
  destruct (make_time_numeric_some p
              (resolve_interval (sample_interval_sec p) (df_train p)) Hn)
    as [tn ->].
  cbn [mbind result_bind]. unfold residual_std. rewrite Hrd.
  unfold Py.truthy. rewrite bool_decide_eq_false_2 by exact Hne. cbn [negb].
  rewrite Haxes, (dict_comprehension_raise _ pre a post ∅ (KeyError a));
    [reflexivity| |].
  - intros k Hk. destruct (Hpre k Hk) as [r Hr].
    exists (std r). unfold Py.getitem. rewrite Hr. reflexivity.
  - unfold Py.getitem. rewrite Ha. reflexivity.
Qed.

(** X8: every axis needs a model: when the rows, the training timestamps
    and the residuals are in order, a call raises [KeyError] for the first
    axis that has no entry in [models]. *)
Theorem missing_model_raises p e m pre a post :
  1 <= row_count p ->
  Pd.max (df_train p) = Ts m ->
  (forall rd, residuals_dict p = Some rd -> rd <> ∅ ->
     forall b, b ∈ axes p -> is_Some (rd !! b)) ->
  axes p = pre ++ a :: post ->
  (forall b, b ∈ pre -> is_Some (models p !! b)) ->
  models p !! a = None ->
  make_synthetic_test p e = Raise (KeyError a).
Proof.
  intros Hn Hm Hrd Haxes Hpre Ha.
  set (iv := resolve_interval (sample_interval_sec p) (df_train p)).
  destruct (residual_std_covers p Hrd) as (rs & Hrs & Hlevel).
  assert (elapsed_seconds p iv <> []) as Hne.
  { intros E. pose proof (elapsed_seconds_length p iv) as HL.
    rewrite E in HL. cbn in HL. lia. }
  unfold make_synthetic_test, baseline_frame. fold iv.
  rewrite (make_time_numeric_eq p iv m Hn Hm). cbn [mbind result_bind].
  rewrite Hrs. cbn [mbind result_bind].
  rewrite Haxes, baseline_app.
  edestruct (baseline_spec p rs (elapsed_seconds p iv) pre) as (data' & -> & _);
    [exact Hne|apply elapsed_seconds_length|lia| |].
  { intros b Hb. split; [apply Hpre, Hb|].
    exists (noise_level p b). split; [|apply noise_level_nonneg].
    apply Hlevel. rewrite Haxes. apply elem_of_app. left. exact Hb. }
  cbn [mbind result_bind baseline]. unfold Py.getitem. rewrite Ha.
  reflexivity.
Qed.


(** X10: blocks need an axis to land on: with an empty list of axes, a
    call for at least one row with a non-zero interval raises [ValueError]
    (the choice among no axes) as soon as one block is requested. *)
Theorem no_axes_raises p e :
  axes p = [] ->
  1 <= row_count p ->
  0 < anomaly_blocks p ->
  ~ (resolve_interval (sample_interval_sec p) (df_train p) == 0)%Q ->
  make_synthetic_test p e = Raise ValueError.
Proof.
  intros Haxes Hn Hblocks Hiv.
  set (iv := resolve_interval (sample_interval_sec p) (df_train p)) in *.
  unfold make_synthetic_test, baseline_frame. fold iv.
  destruct (make_time_numeric_some p iv Hn) as [tn ->].
  cbn [mbind result_bind].
  assert (residual_std p = Ok ∅) as ->.
  { unfold residual_std. rewrite Haxes.
    destruct (residuals_dict p) as [rd|]; [destruct (Py.truthy rd)|]; reflexivity. }
  cbn [mbind result_bind]. rewrite Haxes. cbn [baseline mbind result_bind].
  destruct (Z.to_nat (anomaly_blocks p)) as [|k] eqn:Ek; [lia|].
  cbn [inject_blocks]. unfold inject_block, draw_block.
  destruct (uniform (block_min_sec p) (block_max_sec p) _) as [dur g1].
  destruct (Qeq_bool iv 0) eqn:E; [apply Qeq_bool_iff in E; contradiction|].
  unfold rng_integers.
  set (hi := Z.max 1 (row_count p - _)).
  assert ((0 <? hi) = true) as -> by (unfold hi; lia).
  destruct (integers 0 hi g1) as [s g2]. cbn [mbind result_bind].
  unfold choice. rewrite Haxes.
  destruct (choice_index (length []) g2) as [i g3]. reflexivity.
Qed.

End Failures.

(** ** Further properties: the estimated interval *)

Section Estimate.

Lemma Qsort_elem (l : list Q) (x : Q) : x ∈ Qsort l <-> x ∈ l.
Proof. rewrite (Qsort_perm l). reflexivity. Qed.

Lemma Qsort_length (l : list Q) : length (Qsort l) = length l.
Proof. apply Permutation_length, Qsort_perm. Qed.

Lemma nth_elem (l : list Q) (k : nat) :
  (k < length l)%nat -> nth k l 0%Q ∈ l.
Proof. intros Hk. apply list_elem_of_In, nth_In, Hk. Qed.

Lemma median_within (l : list Q) (m lo hi : Q) :
  median l = Some m ->
  (forall x, x ∈ l -> (lo <= x <= hi)%Q) ->
  (lo <= m <= hi)%Q.
Proof.
  unfold median. intros Hm Hall.
  assert (forall k, (k < length (Qsort l))%nat ->
            (lo <= nth k (Qsort l) 0 <= hi)%Q) as Hnth.
  { intros k Hk. apply Hall, Qsort_elem, nth_elem, Hk. }
  destruct (length (Qsort l)) as [|n] eqn:En; [discriminate|].
  assert (S n / 2 < S n)%nat as Hhalf by (apply Nat.div_lt; lia).
  destruct (Nat.even (S n)); injection Hm as <-.
  - assert (S n / 2 - 1 < S n)%nat as Hprev
      by (revert Hhalf; generalize (S n / 2)%nat; intros; lia).
    pose proof (Hnth _ Hprev) as H1. pose proof (Hnth _ Hhalf) as H2.
    change (S n / 2)%nat with (Nat.divmod n 1 0 0).1 in H1, H2. lra.
  - apply Hnth, Hhalf.
Qed.

Lemma median_policy_within (train : list Timestamp) (lo hi : Q) :
  gaps train <> [] -> (0 < lo)%Q ->
  (forall x, x ∈ gaps train -> (lo <= x <= hi)%Q) ->
  (lo <= median_policy train <= hi)%Q.
Proof.
  intros Hne Hlo Hall. unfold median_policy.
  destruct (median (gaps train)) as [m|] eqn:Hm.
  - pose proof (median_within _ _ _ _ Hm Hall) as Hb.
    destruct (Qle_bool m 0) eqn:E; [|exact Hb].
    apply Qle_bool_iff in E. lra.
  - exfalso. unfold median in Hm. rewrite Qsort_length in Hm.
    destruct (gaps train); [congruence|discriminate].
Qed.

(** X11: with fewer than two training rows there is no gap to take a median
    of: when no finite interval is supplied, the interval is 1.0. *)
Theorem short_training_interval (train : list Timestamp) :
  (length train <= 1)%nat ->
  resolve_interval None train = 1%Q /\
  (forall x, Np.isfinite x = false -> resolve_interval (Some x) train = 1%Q).
Proof.
  intros Hlen.
  assert (estimate_interval train = 1%Q) as Hest.
  { rewrite estimate_interval_median. unfold median_policy.
    destruct train as [|t [|u train]]; [reflexivity|reflexivity|cbn in Hlen; lia]. }
  split; [exact Hest|].
  intros [q| |] Hx; [discriminate|exact Hest|exact Hest].
Qed.

(** X12: the estimated interval is a median: when the training column has a
    gap and every gap between consecutive timestamps lies within
    [[lo, hi]] with [lo > 0], so does the interval estimated for a call
    that supplies none. *)
Theorem estimated_interval_within_gaps (train : list Timestamp) (lo hi : Q) :
  gaps train <> [] -> (0 < lo)%Q ->
  (forall x, x ∈ gaps train -> (lo <= x <= hi)%Q) ->
  (lo <= resolve_interval None train <= hi)%Q.
Proof.
  intros Hne Hlo Hall. cbn [resolve_interval].
  rewrite estimate_interval_median. apply median_policy_within; assumption.
Qed.

Lemma gaps_from_uniform (t0 d : Z) (a m : nat) :
  length (gaps_from (Ts (t0 + Z.of_nat a * d))
            (map (fun i : nat => Ts (t0 + Z.of_nat i * d)) (seq (S a) m))) = m /\
  forall x,
    x ∈ gaps_from (Ts (t0 + Z.of_nat a * d))
          (map (fun i : nat => Ts (t0 + Z.of_nat i * d)) (seq (S a) m)) ->
    (x == d # 1000000000)%Q.
Proof.
  revert a. induction m as [|m IH]; intros a.
  - cbn. split; [reflexivity|]. intros x Hx. inversion Hx.
  - cbn [seq map gaps_from].
    destruct (IH (S a)) as (Hlen & Hall). split.
    + cbn [length]. f_equal. exact Hlen.
    + intros x Hx. apply elem_of_cons in Hx as [->|Hx]; [|apply Hall, Hx].
      unfold Qeq. cbn [Qnum Qden]. lia.
Qed.

(** X13: training data sampled every [d > 0] nanoseconds, on two rows or
    more, gives the interval [d] nanoseconds when the call supplies none. *)
Theorem uniform_sampling_interval (t0 d : Z) (n : nat) :
  0 < d -> (2 <= n)%nat ->
  (resolve_interval None (map (fun i : nat => Ts (t0 + Z.of_nat i * d)) (seq 0 n))
   == d # 1000000000)%Q.
Proof.
  intros Hd Hn. cbn [resolve_interval]. rewrite estimate_interval_median.
  destruct n as [|n]; [lia|]. cbn [seq map].
  destruct (gaps_from_uniform t0 d 0 n) as (Hlen & Hall).
  apply Qle_antisym;
    apply (median_policy_within _ (d # 1000000000) (d # 1000000000)).
  all: try (unfold Qlt; cbn [Qnum Qden]; lia).
  all: try (cbn [gaps]; intros E; rewrite E in Hlen; cbn in Hlen; lia).
  all: cbn [gaps]; intros x Hx; specialize (Hall x Hx); split; rewrite Hall; apply Qle_refl.
Qed.

End Estimate.

(** ** Further properties: when a forced block does clear the threshold *)

Section Forced.

Context {Gen : Generator} {Sta : Stats}.
Implicit Types (p : params) (g : rng_state) (df : DataFrame).

Lemma block_trace_forced p iv rs k g maxc :
  force_above p = true -> MaxC p = Some maxc ->
  Forall (fun b => exists t, maxc !! block_axis b = Some t /\
                     ((12 # 10) * Qabs t <= block_lift b)%Q)
    (block_trace p iv rs k g).
Proof.
  intros Hforce Hmax. revert g.
  induction k as [|k IH]; intros g; cbn [block_trace]; [constructor|].
  destruct (draw_block p iv g) as [[[[s e] a] g3]|]; [|constructor].
  destruct (draw_lift p rs a g3) as [[lift g4]|] eqn:Hl; [|constructor].
  constructor; [|apply IH]. cbn [block_axis block_lift].
  apply draw_lift_inv in Hl as (c & low & high & u & -> & Hu & _ & Hcase).
  rewrite Hforce, Hmax in Hcase. destruct Hcase as (Hc & -> & ->).
  exists c. split; [exact Hc|]. pose proof (Qabs_nonneg c). nra.
Qed.

Lemma apply_block_nonneg c (i : nat) (x : Q) b :
  (0 <= block_lift b)%Q ->
  exists y, apply_block c i (Fin x) b = Fin y /\ (x <= y)%Q.
Proof.
  intros Hb. unfold apply_block. destruct (covers b c i).
  - exists (x + block_lift b)%Q. split; [reflexivity|lra].
  - exists x. split; [reflexivity|apply Qle_refl].
Qed.

Lemma accumulate_covered c (i : nat) (x : Q) trace b :
  Forall (fun b' => (0 <= block_lift b')%Q) trace ->
  b ∈ trace -> covers b c i = true ->
  exists x', accumulate c i (Fin x) trace = Fin x' /\
    (x + block_lift b <= x')%Q.
Proof.
  intros Hall. revert x.
  induction Hall as [|b0 trace Hb0 Hrest IH]; intros x Hin Hcov;
    [inversion Hin|].
  cbn [accumulate foldl]. apply elem_of_cons in Hin as [->|Hin].
  - unfold apply_block at 2. rewrite Hcov.
    destruct (accumulate_nonneg c i (x + block_lift b0) trace Hrest)
      as (x' & Hx' & Hle).
    exists x'. split; [exact Hx'|exact Hle].
  - destruct (apply_block_nonneg c i x b0 Hb0) as (y & -> & Hy).
    destruct (IH y Hin Hcov) as (x' & Hx' & Hle).
    exists x'. split; [exact Hx'|]. lra.
Qed.

(** X14: when the forced lift does guarantee detection: in threshold-aware
    mode, a cell that a block covers ends above [MaxC[axis]] as soon as its
    baseline value is less than [1.2 * |MaxC[axis]|] below the threshold
    (for instance a non-negative baseline under a positive threshold). *)
Theorem forced_block_exceeds_threshold p e df iv rs df0 g0 maxc b c xs
    (i : nat) (x t : Q) :
  make_synthetic_test p e = Ok (df, iv) ->
  baseline_frame p iv e = Ok (rs, df0, g0) ->
  force_above p = true -> MaxC p = Some maxc ->
  b ∈ block_trace p iv rs (Z.to_nat (anomaly_blocks p)) g0 ->
  covers b c i = true ->
  float_column df0 c = Some xs -> xs !! i = Some (Fin x) ->
  maxc !! c = Some t ->
  (t < x + (12 # 10) * Qabs t)%Q ->
  exists xs' x',
    float_column df c = Some xs' /\
    xs' !! i = Some (Fin x') /\
    (t < x')%Q.
Proof.
  intros H Hbase Hforce Hmax Hb Hcov Hc Hx Ht Hgap.
  apply make_synthetic_test_inv in H as (_ & rs' & df0' & g0' & g & Hbase' & Hrun).
  rewrite Hbase in Hbase'. injection Hbase' as <- <- <-.
  apply inject_blocks_trace in Hrun as (_ & _ & _ & _ & Hfl).
  unfold float_column in Hc.
  destruct (columns df0 !! c) as [[ts|xs0]|] eqn:E; try discriminate.
  injection Hc as ->. destruct (Hfl c xs E) as (xs' & Hc' & _ & Hcells).
  destruct (accumulate_covered c i x _ b
              (block_trace_lifts p iv rs (Z.to_nat (anomaly_blocks p)) g0)
              Hb Hcov) as (x' & Hx' & Hle).
  pose proof (block_trace_forced p iv rs (Z.to_nat (anomaly_blocks p)) g0 maxc
                Hforce Hmax) as Hforced.
  rewrite Forall_forall in Hforced.
  destruct (Hforced b Hb) as (t' & Ht' & Hlift).
  assert (block_axis b = c) as Haxis.
  { unfold covers in Hcov. apply andb_prop in Hcov as [Hcov _].
    apply andb_prop in Hcov as [Hcov _]. apply bool_decide_eq_true in Hcov.
    exact Hcov. }
  rewrite Haxis, Ht in Ht'. injection Ht' as <-.
  exists xs', x'. unfold float_column. rewrite Hc'.
  split; [reflexivity|]. split; [|lra].
  rewrite (Hcells i _ Hx). f_equal. exact Hx'.
Qed.

End Forced.

(** ** The properties at concrete calls *)

Module Examples.

Import Fixture.

(** A call with the fixture's generator, at entropy [0]. *)
Definition run (p : params) : result (DataFrame * Q) :=
  make_synthetic_test p (0 : Z).

Lemma example_baseline_ready rows interval blocks maxc :
  1 <= row_count (example_call rows interval blocks maxc) ->
  baseline_ready (example_call rows interval blocks maxc).
Proof.
  intros Hn. split; [exact Hn|]. split; [eexists; reflexivity|]. split.
  - intros a Ha. apply list_elem_of_singleton in Ha as ->. eexists. reflexivity.
  - intros rd Hrd. discriminate Hrd.
Defined.


(** [example_call] keeps the defaults of the signature. *)
Example example_call_defaults :
  example_call None None 10 None
  = defaults example_train {["a1" := {| coef_ := 1 # 2; intercept_ := 3 |}]} ["a1"].
Proof. reflexivity. Qed.

(** The example of the specification: training timestamps 0 s, 10 s, 20 s
    and three rows give the interval 10.0 and the times 30 s, 40 s, 50 s. *)
Example ten_second_example :
  exists df iv tn,
    run (example_call (Some 3) None 10 None) = Ok (df, iv) /\
    (iv == 10)%Q /\
    datetime_column df "time" = Some (seconds [30; 40; 50]) /\
    float_column df "time_numeric" = Some tn /\
    Forall2 feq tn [Fin 0; Fin 10; Fin 20].
Proof.
  eexists _, _, _. split; [vm_compute; reflexivity|].
  split; [reflexivity|]. split; [reflexivity|]. split; [reflexivity|].
  repeat constructor.
Qed.


Lemma example_time_not_axis (name : string) rows interval blocks maxc :
  name <> "a1" -> name ∉ axes (example_call rows interval blocks maxc).
Proof. intros Hne H. apply list_elem_of_singleton in H. contradiction. Defined.

(** C4 as stated fails: a supplied interval of [-5.0] seconds is finite but
    not positive; the code returns it, where the stated policy takes the
    median gap, 10 seconds. *)
Lemma negative_interval_used_verbatim :
  resolve_interval (Some (Fin (-5))) example_train = (-5)%Q /\
  (claimed_interval (Some (Fin (-5))) example_train == 10)%Q /\
  ~ (resolve_interval (Some (Fin (-5))) example_train
     == claimed_interval (Some (Fin (-5))) example_train)%Q.
Proof.
  split; [reflexivity|]. split; [reflexivity|].
  intros H. vm_compute in H. discriminate H.
Qed.



(** *** The theorems at concrete calls *)

(** [zero_rows_raises] at [n_rows=0]. *)
Lemma zero_rows_raises_witness :
  row_count (example_call (Some 0) None 10 None) <= 0 /\
  run (example_call (Some 0) None 10 None) = Raise IndexError.
Proof.
  assert (row_count (example_call (Some 0) None 10 None) <= 0) as H
    by (vm_compute; discriminate).
  split; [exact H|]. apply zero_rows_raises, H.
Defined.

(** [make_synthetic_test_deterministic] at the seed 42 and two entropies. *)
Lemma make_synthetic_test_deterministic_witness :
  let p := example_call None None 10 None in
  seed p = Some 42 /\
  make_synthetic_test p (0 : Z) = make_synthetic_test p (7 : Z).
Proof.
  split; [reflexivity|].
  apply (make_synthetic_test_deterministic _ 42). reflexivity.
Defined.



(** [no_blocks_pure_baseline] at a call with [anomaly_blocks=0]. *)
Lemma no_blocks_pure_baseline_witness :
  let p := example_call None None 0 None in
  let iv := resolve_interval (sample_interval_sec p) (df_train p) in
  anomaly_blocks p <= 0 /\
  exists df ts,
    run p = Ok (df, iv) /\
    make_time_numeric (make_times p iv) = Ok (map Fin ts) /\
    (forall (j : nat) a, axes p !! j = Some a -> a ∉ drop (S j) (axes p) ->
       exists m,
         models p !! a = Some m /\
         float_column df a = Some
           (pure_baseline p m (noise_level p a) ts
              (standard_normal 3
                 (after_noise 3 j (default_rng (seed p) (0 : Z)))).1)).
Proof.
  intros p iv.
  assert (anomaly_blocks p <= 0) as H0 by (vm_compute; discriminate).
  split; [exact H0|].
  apply (no_blocks_pure_baseline (Gen := counter_generator) p (0 : Z)); [|exact H0].
  apply example_baseline_ready. vm_compute. discriminate.
Defined.

(** [missing_threshold_raises] at a call with the empty mapping [MaxC={}]:
    the first round selects "a1". *)
Lemma missing_threshold_raises_witness :
  let p := example_call None None 10 (Some ∅) in
  force_above p = true /\ MaxC p = Some ∅ /\
  run p = Raise (KeyError "a1").
Proof.
  intros p. split; [reflexivity|]. split; [reflexivity|].
  eapply (missing_threshold_raises (Gen := counter_generator) p (0 : Z) ∅ _ _ _ 0 _ _ _ _ "a1").
  - reflexivity.
  - reflexivity.
  - vm_compute. reflexivity.
  - vm_compute. lia.
  - reflexivity.
  - vm_compute. reflexivity.
  - reflexivity.
Defined.

(** [inject_block_frame] at the first round on [example_frame]. *)
Lemma inject_block_frame_witness :
  let p := example_call None None 10 None in
  exists df' g' xs',
    inject_blocks (Gen := counter_generator) p 10 {["a1" := 1%Q]} 1
      example_frame (0 : Z) = Ok (df', g') /\
    index df' = 3%nat /\
    columns df' !! "a1" = Some (FloatCol xs') /\
    length xs' = 3%nat.
Proof.
  intros p.
  destruct (inject_blocks (Gen := counter_generator) p 10 {["a1" := 1%Q]} 1
              example_frame (0 : Z))
    as [[df' g']|] eqn:H; [|vm_compute in H; discriminate H].
  destruct (inject_block_frame (Gen := counter_generator) p 10
              {["a1" := 1%Q]} example_frame (0 : Z) 0
              example_frame (0 : Z) df' g' eq_refl H)
    as (s & e & a & g3 & lift & xs & xs' & _ & _ & _ & _ & Ha & Hi & _ & Hxs & Hxs' & Hlen & _).
  apply list_elem_of_singleton in Ha. subst a.
  exists df', g', xs'. split; [reflexivity|]. split; [exact Hi|].
  split; [exact Hxs'|]. rewrite Hlen.
  assert (xs = [Fin 1; Fin 2; Fin 3]) as -> by (vm_compute in Hxs; congruence).
  reflexivity.
Defined.


End Examples.

(** ** The further properties at concrete calls *)

Module MoreExamples.

Import Fixture Examples.

(** [block_within_table] at the first draw of the default call. *)
Lemma block_within_table_witness :
  let p := example_call None None 10 None in
  exists start_idx end_idx axis g3,
    draw_block (Gen := counter_generator) p 10 (0 : Z)
    = Ok (start_idx, end_idx, axis, g3) /\
    0 <= start_idx < end_idx /\ end_idx <= 3.
Proof.
  intros p.
  destruct (draw_block (Gen := counter_generator) p 10 (0 : Z))
    as [[[[s e] a] g3]|] eqn:H; [|vm_compute in H; discriminate H].
  exists s, e, a, g3. split; [reflexivity|].
  destruct (block_within_table (Gen := counter_generator) p 10 (0 : Z) s e a g3)
    as (Hs & He & _); [vm_compute; discriminate|exact H|].
  split; [exact Hs|exact He].
Defined.

(** [lift_bounds] at a noise-relative lift. *)
Lemma lift_bounds_witness :
  let p := example_call None None 10 None in
  exists lift g',
    draw_lift (Gen := counter_generator) p {["a1" := 1%Q]} "a1" (0 : Z)
    = Ok (lift, g') /\ (0 <= lift)%Q.
Proof.
  intros p.
  destruct (draw_lift (Gen := counter_generator) p {["a1" := 1%Q]} "a1" (0 : Z))
    as [[lift g']|] eqn:H; [|vm_compute in H; discriminate H].
  exists lift, g'. split; [reflexivity|].
  exact (proj1 (lift_bounds (Gen := counter_generator) p _ _ _ _ _ H)).
Defined.

(** [blocks_accumulate] at the default call: ten blocks. *)
Lemma blocks_accumulate_witness :
  let p := example_call None None 10 None in
  exists df iv rs df0 g0,
    run p = Ok (df, iv) /\
    baseline_frame (Gen := counter_generator) p iv (0 : Z) = Ok (rs, df0, g0) /\
    length (block_trace p iv rs 10 g0) = 10%nat.
Proof.
  intros p.
  destruct (run p) as [[df iv]|] eqn:H; [|vm_compute in H; discriminate H].
  destruct (blocks_accumulate (Gen := counter_generator) p (0 : Z) df iv H)
    as (rs & df0 & g0 & Hbase & Hlen & _).
  exists df, iv, rs, df0, g0. split; [reflexivity|]. split; [exact Hbase|].
  exact Hlen.
Defined.

(** [injection_never_lowers] at the first row of "a1" in the default call. *)
Lemma injection_never_lowers_witness :
  let p := example_call None None 10 None in
  exists df iv xs' x',
    run p = Ok (df, iv) /\
    float_column df "a1" = Some xs' /\
    xs' !! 0%nat = Some (Fin x').
Proof.
  intros p.
  assert (exists df iv rs df0 g0 xs x,
            run p = Ok (df, iv) /\
            baseline_frame (Gen := counter_generator) p iv (0 : Z)
            = Ok (rs, df0, g0) /\
            float_column df0 "a1" = Some xs /\ xs !! 0%nat = Some (Fin x))
    as (df & iv & rs & df0 & g0 & xs & x & Hrun & Hbase & Hcol & Hx).
  { eexists _, _, _, _, _, _, _. split; [vm_compute; reflexivity|].
    split; [vm_compute; reflexivity|]. split; reflexivity. }
  destruct (injection_never_lowers (Gen := counter_generator) p (0 : Z)
              df iv rs df0 g0 "a1" xs 0 x Hrun Hbase Hcol Hx)
    as (xs' & x' & Hcol' & Hx' & _).
  exists df, iv, xs', x'. split; [exact Hrun|]. split; [exact Hcol'|exact Hx'].
Defined.

(** [returned_table_shape] at the default call. *)
Lemma returned_table_shape_witness :
  let p := example_call None None 10 None in
  exists df iv,
    run p = Ok (df, iv) /\ index df = 3%nat /\
    is_Some (columns df !! "time") /\ columns df !! "axis9" = None.
Proof.
  intros p.
  destruct (run p) as [[df iv]|] eqn:H; [|vm_compute in H; discriminate H].
  destruct (returned_table_shape (Gen := counter_generator) p (0 : Z) df iv H)
    as (_ & Hidx & Hcols & _).
  exists df, iv. split; [reflexivity|]. split; [exact Hidx|]. split.
  - apply Hcols. left. reflexivity.
  - destruct (columns df !! "axis9") as [col|] eqn:E; [|reflexivity].
    exfalso. destruct (proj1 (Hcols "axis9") (ex_intro _ col E))
      as [E'|[E'|E']]; [discriminate E'|discriminate E'|].
    apply list_elem_of_singleton in E'. discriminate E'.
Defined.

(** [time_never_goes_back] at a call sampling at 4096 Hz. *)
Lemma time_never_goes_back_witness :
  let p := example_call (Some 4) (Some (Fin (1 # 4096))) 10 None in
  exists df iv times,
    run p = Ok (df, iv) /\
    datetime_column df "time" = Some times /\
    length times = 4%nat /\ nondecreasing times.
Proof.
  intros p.
  destruct (run p) as [[df iv]|] eqn:H; [|vm_compute in H; discriminate H].
  assert (iv = (1 # 4096)%Q) as Hiv by (vm_compute in H; congruence).
  destruct (time_never_goes_back (Gen := counter_generator) p (0 : Z) df iv
              20000000000 H)
    as (times & Hcol & Hlen & Hmono & _).
  - apply example_time_not_axis. discriminate.
  - reflexivity.
  - rewrite Hiv. discriminate.
  - exists df, iv, times. split; [reflexivity|]. split; [exact Hcol|].
    split; [exact Hlen|exact Hmono].
Defined.

(** [missing_residuals_raise] when the residuals are those of another axis. *)
Lemma missing_residuals_raise_witness :
  make_synthetic_test (Gen := counter_generator)
    (custom_call ["a1"] {["a1" := {| coef_ := 1 # 2; intercept_ := 3 |}]}
       (Some {["a2" := [1%Q; 2%Q]]})) (0 : Z)
  = Raise (KeyError "a1").
Proof.
  apply (missing_residuals_raise (Gen := counter_generator) _ _
           {["a2" := [1%Q; 2%Q]]} [] "a1" []).
  - vm_compute. discriminate.
  - reflexivity.
  - intros E. apply (f_equal (fun m : gmap string (list Q) => m !! "a2")) in E.
    vm_compute in E. discriminate E.
  - reflexivity.
  - intros b Hb. inversion Hb.
  - reflexivity.
Defined.

(** [missing_model_raises] when the second axis has no model. *)
Lemma missing_model_raises_witness :
  make_synthetic_test (Gen := counter_generator)
    (custom_call ["a1"; "a2"]
       {["a1" := {| coef_ := 1 # 2; intercept_ := 3 |}]} None) (0 : Z)
  = Raise (KeyError "a2").
Proof.
  apply (missing_model_raises (Gen := counter_generator) _ _ 20000000000
           ["a1"] "a2" []).
  - vm_compute. discriminate.
  - reflexivity.
  - intros rd Hrd. discriminate Hrd.
  - reflexivity.
  - intros b Hb. apply list_elem_of_singleton in Hb as ->. eexists. reflexivity.
  - reflexivity.
Defined.


(** [no_axes_raises] at a call without axes. *)
Lemma no_axes_raises_witness :
  make_synthetic_test (Gen := counter_generator) (custom_call [] ∅ None) (0 : Z)
  = Raise ValueError.
Proof.
  apply (no_axes_raises (Gen := counter_generator)).
  - reflexivity.
  - vm_compute. discriminate.
  - reflexivity.
  - intros H. vm_compute in H. discriminate H.
Defined.

(** [short_training_interval] at a single training row. *)
Lemma short_training_interval_witness :
  resolve_interval None [Ts 5] = 1%Q.
Proof.
  apply (short_training_interval [Ts 5]). cbn. lia.
Defined.

(** [estimated_interval_within_gaps] at the example training column, whose
    gaps are all ten seconds. *)
Lemma estimated_interval_within_gaps_witness :
  (10 <= resolve_interval None example_train <= 10)%Q.
Proof.
  apply (estimated_interval_within_gaps example_train 10 10).
  - discriminate.
  - reflexivity.
  - intros x Hx. vm_compute in Hx.
    apply elem_of_cons in Hx as [->|Hx];
      [split; discriminate|].
    apply list_elem_of_singleton in Hx as ->. split; discriminate.
Defined.

(** [uniform_sampling_interval] at three rows ten seconds apart. *)
Lemma uniform_sampling_interval_witness :
  (resolve_interval None
     (map (fun i : nat => Ts (0 + Z.of_nat i * 10000000000)) (seq 0 3))
   == 10000000000 # 1000000000)%Q.
Proof.
  apply (uniform_sampling_interval 0 10000000000 3); lia.
Defined.

(** [forced_block_exceeds_threshold] at a one-row call with
    [MaxC["a1"] = 2]. *)
Lemma forced_block_exceeds_threshold_witness :
  let p := example_call (Some 1) None 1 (Some {["a1" := 2%Q]}) in
  exists df iv xs' x',
    run p = Ok (df, iv) /\
    float_column df "a1" = Some xs' /\
    xs' !! 0%nat = Some (Fin x') /\
    (2 < x')%Q.
Proof.
  intros p.
  assert (exists df iv rs df0 g0 b xs x,
            run p = Ok (df, iv) /\
            baseline_frame (Gen := counter_generator) p iv (0 : Z)
            = Ok (rs, df0, g0) /\
            b ∈ block_trace p iv rs (Z.to_nat (anomaly_blocks p)) g0 /\
            covers b "a1" 0 = true /\
            float_column df0 "a1" = Some xs /\ xs !! 0%nat = Some (Fin x) /\
            (2 < x + (12 # 10) * Qabs 2)%Q)
    as (df & iv & rs & df0 & g0 & b & xs & x
        & Hrun & Hbase & Hb & Hcov & Hcol & Hx & Hgap).
  { eexists _, _, _, _, _, _, _, _. split; [vm_compute; reflexivity|].
    split; [vm_compute; reflexivity|].
    split; [vm_compute; apply list_elem_of_here|].
    split; [reflexivity|]. split; [reflexivity|]. split; reflexivity. }
  destruct (forced_block_exceeds_threshold (Gen := counter_generator) p (0 : Z)
              df iv rs df0 g0 {["a1" := 2%Q]} b "a1" xs 0 x 2
              Hrun Hbase eq_refl eq_refl Hb Hcov Hcol Hx eq_refl Hgap)
    as (xs' & x' & Hcol' & Hx' & Hlt).
  exists df, iv, xs', x'. split; [exact Hrun|]. split; [exact Hcol'|].
  split; [exact Hx'|exact Hlt].
Defined.

End MoreExamples.
